(** * Telemetry-correlated request pipeline: a shallow embedding

    The two service variants of the repository, [app4.py] (OpenTelemetry)
    and [config_files_elk/app5-elk.py] (Elastic APM), are embedded as
    functions in a state-and-exception monad over an explicit [world]:
    the SQLite file, the tracing context, the emitted telemetry and the
    cursors into the sources of non-determinism (random draws, clock
    readings, generated identifiers). *)

From Stdlib Require Import ZArith NArith Ascii String List Sorted Permutation Lia.
From Stdlib Require Import Floats.SpecFloat.
From stdpp Require Import base option list gmap strings pretty.

Local Open Scope Z_scope.
Local Open Scope string_scope.
Local Open Scope list_scope.

(** ** Python floats

    A Python [float] is an IEEE-754 binary64 value.  We use the Standard
    Library's inductive specification of binary floats; [<] on floats is
    [SFltb] (false whenever an operand is NaN), as in Python. *)

Module Float64.

Abbreviation float := spec_float.

Definition prec : Z := 53.
Definition emax : Z := 1024.

Definition of_Z (z : Z) : float := binary_normalize prec emax z 0 false.

Definition ltb (x y : float) : bool := SFltb x y.
Definition leb (x y : float) : bool := SFleb x y.
Definition add (x y : float) : float := SFadd prec emax x y.
Definition sub (x y : float) : float := SFsub prec emax x y.
Definition mul (x y : float) : float := SFmul prec emax x y.
Definition sqrt (x : float) : float := SFsqrt prec emax x.

Definition zero : float := S754_zero false.
Definition one : float := Eval cbv in of_Z 1.
Definition hundred : float := Eval cbv in of_Z 100.
Definition thousand : float := Eval cbv in of_Z 1000.
Definition half : float := S754_finite false 4503599627370496 (-53).
Definition two : float := Eval cbv in of_Z 2.
Definition minus_one : float := Eval cbv in of_Z (-1).

  (** The documented range of [random.random()]: [0.0 <= x < 1.0]. *)
Definition unit_interval (x : float) : bool := leb zero x && ltb x one.

End Float64.

Import Float64.

(** ** Values carried by telemetry and by JSON bodies *)

Inductive value :=
| VStr (s : string)
| VInt (z : Z)
| VFloat (f : float)
| VNone.

Definition dict := list (string * value).

(** ** Python exceptions raised or caught by the handlers *)

Inductive exn :=
| OperationalError (msg : string)
| HTTPException (status_code : Z) (detail : string).

(** ** SQLite store *)

Record txn_row := {
  row_id : Z;
  row_amount : float;
  row_currency : string;
  row_status : string
}.

(** A pending [INSERT]: target table and the three bound values. *)
Record pending_insert := {
  ins_table : string;
  ins_row : txn_row
}.

(** A connection handle as held in the handler's local [conn]/[cur]. *)
Record connection := {
  conn_id : nat;
  conn_pending : list pending_insert
}.

(** ** Tracing *)

Record span := {
  sp_handle : nat;            (* identity of the span object *)
  sp_name : string;
  sp_trace_id : Z;
  sp_span_id : Z;
  sp_parent : option nat      (* handle of the span active at creation *)
}.

Inductive status_code := StatusError.

Inductive level := INFO | WARNING | ERROR.

(** What a handler does, in program order.  [CpuLoop n] stands for a
    completed run of the [n]-step arithmetic loop and [ListSorted l] for
    [data.sort()] having left [l] in the list; the other events are calls on
    the tracing, logging, database and APM interfaces. *)
Inductive event :=
| SpanStart (s : span)
| SpanEnd (s : span)
| SetAttribute (s : span) (key : string) (v : value)
| RecordException (s : span) (e : exn)
| SetStatus (s : span) (c : status_code)
| Log (lvl : level) (fmt : string) (args : list value) (exc_info : bool)
| CpuLoop (iterations : N)
| ListSorted (data : list float)
| DbConnect (c : nat)
| DbCreateTableIfNotExists (table : string)
| DbInsert (table : string) (amount : float) (currency status : string)
| DbCommit (c : nat)
| DbClose (c : nat)
| ApmLabel (labels : dict)
| ApmCaptureException
| ApmSetTransactionResult (result : string).

(** ** Metrics *)

Record sample := {
  instrument : string;
  sample_value : value;
  sample_labels : list (string * string)
}.

(** ** Sources of non-determinism

    The [n]-th call of [random.random()], of [time.perf_counter()], and the
    identifiers generated for the [n]-th span. *)

Record oracle := {
  random_random : nat -> float;
  perf_counter : nat -> float;
  generate_trace_id : nat -> Z;
  generate_span_id : nat -> Z
}.

(** ** The world a request runs in *)

Record world := {
  db : gmap string (list txn_row);   (* committed tables of the file at DB_PATH *)
  connections : nat;                 (* connections opened so far *)
  open_connections : list nat;       (* handles not yet closed *)
  current_span : option span;        (* the active span of the current context *)
  span_count : nat;                  (* spans created so far *)
  apm_transaction : option Z;        (* Elastic APM: trace id of the request's transaction *)
  events : list event;
  samples : list sample;
  rng_calls : nat;
  clock_calls : nat
}.

Definition set_db (f : gmap string (list txn_row) -> gmap string (list txn_row)) (w : world) : world :=
  {| db := f (db w); connections := connections w; open_connections := open_connections w;
     current_span := current_span w; span_count := span_count w;
     apm_transaction := apm_transaction w; events := events w; samples := samples w;
     rng_calls := rng_calls w; clock_calls := clock_calls w |}.

Definition set_connections (n : nat) (l : list nat) (w : world) : world :=
  {| db := db w; connections := n; open_connections := l;
     current_span := current_span w; span_count := span_count w;
     apm_transaction := apm_transaction w; events := events w; samples := samples w;
     rng_calls := rng_calls w; clock_calls := clock_calls w |}.

Definition set_current_span (s : option span) (w : world) : world :=
  {| db := db w; connections := connections w; open_connections := open_connections w;
     current_span := s; span_count := span_count w;
     apm_transaction := apm_transaction w; events := events w; samples := samples w;
     rng_calls := rng_calls w; clock_calls := clock_calls w |}.

Definition set_span_count (n : nat) (w : world) : world :=
  {| db := db w; connections := connections w; open_connections := open_connections w;
     current_span := current_span w; span_count := n;
     apm_transaction := apm_transaction w; events := events w; samples := samples w;
     rng_calls := rng_calls w; clock_calls := clock_calls w |}.

Definition set_events (l : list event) (w : world) : world :=
  {| db := db w; connections := connections w; open_connections := open_connections w;
     current_span := current_span w; span_count := span_count w;
     apm_transaction := apm_transaction w; events := l; samples := samples w;
     rng_calls := rng_calls w; clock_calls := clock_calls w |}.

Definition set_samples (l : list sample) (w : world) : world :=
  {| db := db w; connections := connections w; open_connections := open_connections w;
     current_span := current_span w; span_count := span_count w;
     apm_transaction := apm_transaction w; events := events w; samples := l;
     rng_calls := rng_calls w; clock_calls := clock_calls w |}.

Definition set_rng_calls (n : nat) (w : world) : world :=
  {| db := db w; connections := connections w; open_connections := open_connections w;
     current_span := current_span w; span_count := span_count w;
     apm_transaction := apm_transaction w; events := events w; samples := samples w;
     rng_calls := n; clock_calls := clock_calls w |}.

Definition set_clock_calls (n : nat) (w : world) : world :=
  {| db := db w; connections := connections w; open_connections := open_connections w;
     current_span := current_span w; span_count := span_count w;
     apm_transaction := apm_transaction w; events := events w; samples := samples w;
     rng_calls := rng_calls w; clock_calls := n |}.

(** ** The monad of handler code: state passing with Python exceptions *)

Inductive outcome (A : Type) :=
| Return (a : A)
| Raise (e : exn).
Arguments Return {A} a.
Arguments Raise {A} e.

Definition M (A : Type) : Type := world -> outcome A * world.

Definition ret {A} (a : A) : M A := fun w => (Return a, w).

Definition bind {A B} (m : M A) (k : A -> M B) : M B :=
  fun w =>
    match m w with
    | (Return a, w') => k a w'
    | (Raise e, w') => (Raise e, w')
    end.

Definition raise {A} (e : exn) : M A := fun w => (Raise e, w).

(** [try: body except Exception as e: handler e] *)
Definition try_except {A} (body : M A) (handler : exn -> M A) : M A :=
  fun w =>
    match body w with
    | (Return a, w') => (Return a, w')
    | (Raise e, w') => handler e w'
    end.

Declare Scope py_scope.
Delimit Scope py_scope with py.
Notation "x <- c1 ;; c2" := (bind c1 (fun x => c2))
  (at level 100, c1 at next level, right associativity) : py_scope.
Notation "c1 ;; c2" := (bind c1 (fun _ => c2))
  (at level 100, right associativity) : py_scope.
Local Open Scope py_scope.

Definition emit (e : event) : M unit :=
  fun w => (Return tt, set_events (events w ++ [e]) w).

(** ** [sqlite3]: the calls the handlers make

    Only the behaviour the handlers rely on is modelled: DDL is applied at
    once (Python's [sqlite3] runs it outside a transaction), an [INSERT]
    opens an implicit transaction whose rows become visible to other
    connections at [commit], and a statement naming a missing table raises
    [OperationalError].  Opening the file and writing to it are taken to
    succeed, and row ids stay below 2^63. *)

Definition sqlite3_connect : M connection :=
  fun w =>
    let c := connections w in
    (Return {| conn_id := c; conn_pending := [] |},
     set_events (events w ++ [DbConnect c])
       (set_connections (S c) (c :: open_connections w) w)).

Definition ensure_table (table : string) (d : gmap string (list txn_row))
    : gmap string (list txn_row) :=
  match d !! table with
  | Some _ => d
  | None => <[table := []]> d
  end.

(** [conn.execute("CREATE TABLE IF NOT EXISTS <table> (...)")] *)
Definition create_table_if_not_exists (table : string) : M unit :=
  fun w =>
    (Return tt,
     set_events (events w ++ [DbCreateTableIfNotExists table])
       (set_db (ensure_table table) w)).

(** The id SQLite gives to a row inserted without one into an
    [INTEGER PRIMARY KEY] column: 1 for an empty table, else the largest
    id plus one. *)
Definition next_rowid (rows : list txn_row) : Z :=
  match rows with
  | [] => 1
  | r :: rest => fold_left Z.max (map row_id rest) (row_id r) + 1
  end.

Definition pending_rows (table : string) (p : list pending_insert) : list txn_row :=
  map ins_row (filter (fun i => ins_table i = table) p).

Definition no_such_table (table : string) : exn :=
  OperationalError (String.append "no such table: " table).

(** [cur.execute("INSERT INTO <table> (amount, currency, status) VALUES (?, ?, ?)", ...)] *)
Definition execute_insert (cur : connection) (table : string)
    (amount : float) (currency status : string) : M connection :=
  fun w =>
    let w1 := set_events (events w ++ [DbInsert table amount currency status]) w in
    match db w !! table with
    | None => (Raise (no_such_table table), w1)
    | Some rows =>
        let r := {| row_id := next_rowid (rows ++ pending_rows table (conn_pending cur));
                    row_amount := amount; row_currency := currency; row_status := status |} in
        (Return {| conn_id := conn_id cur;
                   conn_pending := conn_pending cur ++ [{| ins_table := table; ins_row := r |}] |},
         w1)
    end.

Definition apply_insert (d : gmap string (list txn_row)) (i : pending_insert)
    : gmap string (list txn_row) :=
  match d !! ins_table i with
  | Some rows => <[ins_table i := rows ++ [ins_row i]]> d
  | None => d
  end.

Definition commit (conn : connection) : M connection :=
  fun w =>
    (Return {| conn_id := conn_id conn; conn_pending := [] |},
     set_events (events w ++ [DbCommit (conn_id conn)])
       (set_db (fun d => fold_left apply_insert (conn_pending conn) d) w)).

Definition close (conn : connection) : M unit :=
  fun w =>
    (Return tt,
     set_events (events w ++ [DbClose (conn_id conn)])
       (set_connections (connections w)
          (filter (fun c => c <> conn_id conn) (open_connections w)) w)).

(** [SELECT * FROM <table>] on the committed state. *)
Definition select_all (table : string) (w : world) : option (list txn_row) :=
  db w !! table.

(** ** Clock, random numbers, logging, metrics *)

Definition time_perf_counter (env : oracle) : M float :=
  fun w => (Return (perf_counter env (clock_calls w)), set_clock_calls (S (clock_calls w)) w).

Definition random_call (env : oracle) : M float :=
  fun w => (Return (random_random env (rng_calls w)), set_rng_calls (S (rng_calls w)) w).

Definition logger_info (fmt : string) (args : list value) : M unit :=
  emit (Log INFO fmt args false).
Definition logger_warning (fmt : string) (args : list value) : M unit :=
  emit (Log WARNING fmt args false).
Definition logger_error (fmt : string) (exc_info : bool) : M unit :=
  emit (Log ERROR fmt [] exc_info).

Definition record_sample (name : string) (v : value) (labels : list (string * string)) : M unit :=
  fun w =>
    (Return tt,
     set_samples (samples w ++ [{| instrument := name; sample_value := v;
                                   sample_labels := labels |}]) w).

(** ** The HTTP layer

    FastAPI answers 200 with the returned dict, answers an [HTTPException]
    with its status code and [{"detail": ...}], and answers any other
    exception with 500. *)

Record response := {
  http_status : Z;
  http_body : dict
}.

Definition serve (handler : M dict) (w : world) : response * world :=
  match handler w with
  | (Return b, w') => ({| http_status := 200; http_body := b |}, w')
  | (Raise (HTTPException c d), w') =>
      ({| http_status := c; http_body := [("detail", VStr d)] |}, w')
  | (Raise (OperationalError _), w') =>
      ({| http_status := 500; http_body := [("detail", VStr "Internal Server Error")] |}, w')
  end.

(** The request body, [TransactionModel]. *)
Record TransactionModel := {
  amount : float;
  currency : string
}.

(** [val = 0; for i in range(n): val += math.sqrt(i)] *)
Definition sqrt_sum (n : N) : float :=
  N.recursion zero (fun i val => add val (sqrt (of_Z (Z.of_N i)))) n.

(** [data.sort()] on a list of floats: a stable sort driven by [<]. *)
Fixpoint sort_insert (x : float) (l : list float) : list float :=
  match l with
  | [] => [x]
  | y :: l' => if ltb y x then y :: sort_insert x l' else x :: y :: l'
  end.

Definition list_sort (l : list float) : list float := foldr sort_insert [] l.

(** [len(range(n))] *)
Definition range_len (n : Z) : nat := Z.to_nat n.

(** [[random.random() for _ in range(n)]] *)
Fixpoint random_list (env : oracle) (n : nat) : M (list float) :=
  match n with
  | O => ret []
  | S k => x <- random_call env ;; xs <- random_list env k ;; ret (x :: xs)
  end.

(** ** Variant 1: [app4.py], instrumented with the OpenTelemetry SDK *)

Module App4.
Section WithOracle.
Variable env : oracle.

  (** [tracer.start_span]: a child of the active span, or a new root with a
      freshly generated trace id.  The new span becomes the active one. *)
Definition start_span (name : string) : M span :=
    fun w =>
      let h := span_count w in
      let s := {| sp_handle := h; sp_name := name;
                  sp_trace_id := match current_span w with
                                 | Some p => sp_trace_id p
                                 | None => generate_trace_id env h
                                 end;
                  sp_span_id := generate_span_id env h;
                  sp_parent := sp_handle <$> current_span w |} in
      (Return s,
       set_events (events w ++ [SpanStart s])
         (set_current_span (Some s) (set_span_count (S h) w))).

  (** [with tracer.start_as_current_span(name) as span: body]: whatever way
      the body leaves, the span is ended and the context that was current
      on entry is put back; an exception then continues to propagate.  (On
      an exception the SDK also notes it on the span before ending it; that
      bookkeeping is not part of the record kept here.) *)
Definition start_as_current_span {A} (name : string) (body : span -> M A) : M A :=
    fun w =>
      let saved := current_span w in
      match start_span name w with
      | (Return s, w1) =>
          let (r, w2) := body s w1 in
          (r, set_current_span saved (set_events (events w2 ++ [SpanEnd s]) w2))
      | (Raise e, w1) => (Raise e, w1)
      end.

Definition set_attribute (s : span) (key : string) (v : value) : M unit :=
    emit (SetAttribute s key v).
Definition record_exception (s : span) (e : exn) : M unit :=
    emit (RecordException s e).
Definition set_status (s : span) (c : status_code) : M unit :=
    emit (SetStatus s c).

Definition transaction_counter_add (n : Z) (labels : list (string * string)) : M unit :=
    record_sample "business.transactions.total" (VInt n) labels.
Definition transaction_value_record (v : float) (labels : list (string * string)) : M unit :=
    record_sample "business.transaction.value" (VFloat v) labels.
Definition processing_duration_record (v : float) (labels : list (string * string)) : M unit :=
    record_sample "app.processing.duration" (VFloat v) labels.

Definition get_conn : M connection :=
    conn <- sqlite3_connect ;;
    create_table_if_not_exists "transactions" ;;
    ret conn.

Definition process_transaction (txn : TransactionModel) (fail_rate : float) : M dict :=
    start_as_current_span "process_payment" (fun span =>
      set_attribute span "transaction.currency" (VStr (currency txn)) ;;
      set_attribute span "transaction.amount" (VFloat (amount txn)) ;;
      logger_info "Starting transaction processing for {} {}"
        [VFloat (amount txn); VStr (currency txn)] ;;
      start_as_current_span "fraud_check" (fun _ =>
        start <- time_perf_counter env ;;
        let val := sqrt_sum 500000 in
        emit (CpuLoop 500000) ;;
        logger_info "Fraud check passed successfully" []) ;;
      try_except
        (conn <- get_conn ;;
         let cur := conn in
         r <- random_call env ;;
         if ltb r fail_rate then
           cur <- execute_insert cur "fake_db" (amount txn) (currency txn) "SUCCESS" ;;
           conn <- commit cur ;;
           close conn
         else
           cur <- execute_insert cur "transactions" (amount txn) (currency txn) "SUCCESS" ;;
           conn <- commit cur ;;
           close conn)
        (fun e =>
           record_exception span e ;;
           set_status span StatusError ;;
           logger_error "Database failed to save transaction" true ;;
           raise (HTTPException 500 "Transaction failed")) ;;
      transaction_counter_add 1 [("currency", currency txn); ("status", "success")] ;;
      transaction_value_record (amount txn) [("currency", currency txn)] ;;
      ret [("status", VStr "processed"); ("trace_id", VInt (sp_trace_id span))]).

Definition maintenance_task (mult : Z) : M dict :=
    start_as_current_span "system_maintenance" (fun span =>
      set_attribute span "maintenance.intensity" (VInt mult) ;;
      logger_warning "Starting high-intensity maintenance task." [] ;;
      start <- time_perf_counter env ;;
      data <- random_list env (range_len (mult * 100000)) ;;
      let data := list_sort data in
      emit (ListSorted data) ;;
      now <- time_perf_counter env ;;
      let duration := mul (sub now start) thousand in
      processing_duration_record duration [("task_type", "sort")] ;;
      logger_info "Maintenance finished in {:.2f}ms" [VFloat duration] ;;
      ret [("status", VStr "done"); ("duration_ms", VFloat duration)]).

End WithOracle.
End App4.

(** ** Variant 2: [config_files_elk/app5-elk.py], instrumented with the
    Elastic APM agent *)

Module App5.
Section WithOracle.
Variable env : oracle.

Definition hex_digit (d : Z) : ascii :=
    match String.get (Z.to_nat d) "0123456789abcdef" with
    | Some c => c
    | None => "0"%char
    end.

Fixpoint hex_digits (n : nat) (z : Z) (acc : string) : string :=
    match n with
    | O => acc
    | S k => hex_digits k (z / 16) (String (hex_digit (z mod 16)) acc)
    end.

  (** [elasticapm.get_trace_id()]: the 32-digit hexadecimal trace id of the
      request's transaction, or [None] outside one. *)
Definition get_trace_id : M (option string) :=
    fun w => (Return ((fun z => hex_digits 32 z "") <$> apm_transaction w), w).

  (** How an f-string renders the result of [get_trace_id]. *)
Definition format_trace_id (t : option string) : string :=
    match t with
    | Some s => s
    | None => "None"
    end.

Definition trace_id_value (t : option string) : value :=
    match t with
    | Some s => VStr s
    | None => VNone
    end.

  (** [with elasticapm.capture_span(name): body]: inside a transaction the
      agent starts a span, ends it however the body leaves and puts the
      previous span back; outside a transaction no span is made. *)
Definition capture_span {A} (name : string) (body : M A) : M A :=
    fun w =>
      match apm_transaction w with
      | None => body w
      | Some tid =>
          let saved := current_span w in
          let h := span_count w in
          let s := {| sp_handle := h; sp_name := name; sp_trace_id := tid;
                      sp_span_id := generate_span_id env h;
                      sp_parent := sp_handle <$> saved |} in
          let w1 := set_events (events w ++ [SpanStart s])
                      (set_current_span (Some s) (set_span_count (S h) w)) in
          let (r, w2) := body w1 in
          (r, set_current_span saved (set_events (events w2 ++ [SpanEnd s]) w2))
      end.

Definition label (labels : dict) : M unit := emit (ApmLabel labels).
Definition set_transaction_result (r : string) : M unit :=
    emit (ApmSetTransactionResult r).
Definition capture_exception : M unit := emit ApmCaptureException.

Definition get_conn : M connection :=
    conn <- sqlite3_connect ;;
    create_table_if_not_exists "transactions" ;;
    ret conn.

Definition process_transaction (txn : TransactionModel) (fail_rate : float) : M dict :=
    capture_span "process_payment" (
      label [("transaction_currency", VStr (currency txn));
             ("transaction_amount", VFloat (amount txn))] ;;
      logger_info "Starting transaction processing for {} {}"
        [VFloat (amount txn); VStr (currency txn)] ;;
      capture_span "fraud_check" (
        start <- time_perf_counter env ;;
        let val := sqrt_sum 500000 in
        emit (CpuLoop 500000) ;;
        logger_info "Fraud check passed successfully" []) ;;
      try_except
        (conn <- get_conn ;;
         let cur := conn in
         r <- random_call env ;;
         cur <- (if ltb r fail_rate then
                   execute_insert cur "fake_db" (amount txn) (currency txn) "SUCCESS"
                 else
                   execute_insert cur "transactions" (amount txn) (currency txn) "SUCCESS") ;;
         conn <- commit cur ;;
         close conn ;;
         label [("business_status", VStr "success")] ;;
         set_transaction_result "SUCCESS")
        (fun e =>
           capture_exception ;;
           label [("business_status", VStr "failed")] ;;
           set_transaction_result "FAILURE" ;;
           logger_error "Database failed to save transaction" true ;;
           t <- get_trace_id ;;
           raise (HTTPException 500
                    (String.append "Transaction failed. trace_id: " (format_trace_id t)))) ;;
      t <- get_trace_id ;;
      ret [("status", VStr "processed"); ("trace_id", trace_id_value t)]).

Definition maintenance_task (mult : Z) : M dict :=
    capture_span "system_maintenance" (
      label [("maintenance_intensity", VInt mult)] ;;
      logger_warning "Starting high-intensity maintenance task." [] ;;
      start <- time_perf_counter env ;;
      data <- random_list env (range_len (mult * 100000)) ;;
      let data := list_sort data in
      emit (ListSorted data) ;;
      now <- time_perf_counter env ;;
      let duration := mul (sub now start) thousand in
      label [("task_type", VStr "sort"); ("processing_duration_ms", VFloat duration)] ;;
      logger_info "Maintenance finished in {:.2f}ms" [VFloat duration] ;;
      ret [("status", VStr "done"); ("duration_ms", VFloat duration)]).

End WithOracle.
End App5.

(** ** What a run leaves behind

    The definitions below name the pieces of the final world of a handler
    run, so that the theorems can speak about them. *)

(** The draw that a request started in [w] will see. *)
Definition draw (env : oracle) (w : world) : float := random_random env (rng_calls w).

Definition fake_db_absent (w : world) : Prop := db w !! "fake_db" = None.

Module Run4.

  (** The span opened by [start_as_current_span name] in [w]. *)
Definition new_span (env : oracle) (name : string) (w : world) : span :=
    {| sp_handle := span_count w; sp_name := name;
       sp_trace_id := match current_span w with
                      | Some p => sp_trace_id p
                      | None => generate_trace_id env (span_count w)
                      end;
       sp_span_id := generate_span_id env (span_count w);
       sp_parent := sp_handle <$> current_span w |}.

Definition root_span (env : oracle) (w : world) : span :=
    new_span env "process_payment" w.

Definition fraud_span (env : oracle) (w : world) : span :=
    {| sp_handle := S (span_count w); sp_name := "fraud_check";
       sp_trace_id := sp_trace_id (root_span env w);
       sp_span_id := generate_span_id env (S (span_count w));
       sp_parent := Some (span_count w) |}.

  (** Events up to the end of the [fraud_check] span. *)
Definition prologue (env : oracle) (txn : TransactionModel) (w : world) : list event :=
    [ SpanStart (root_span env w);
      SetAttribute (root_span env w) "transaction.currency" (VStr (currency txn));
      SetAttribute (root_span env w) "transaction.amount" (VFloat (amount txn));
      Log INFO "Starting transaction processing for {} {}"
        [VFloat (amount txn); VStr (currency txn)] false;
      SpanStart (fraud_span env w);
      CpuLoop 500000;
      Log INFO "Fraud check passed successfully" [] false;
      SpanEnd (fraud_span env w) ].

  (** Events of the persistence attempt on [table], up to the [INSERT]. *)
Definition attempt (txn : TransactionModel) (table : string) (w : world) : list event :=
    [ DbConnect (connections w);
      DbCreateTableIfNotExists "transactions";
      DbInsert table (amount txn) (currency txn) "SUCCESS" ].

Definition failure_epilogue (env : oracle) (w : world) : list event :=
    [ RecordException (root_span env w) (no_such_table "fake_db");
      SetStatus (root_span env w) StatusError;
      Log ERROR "Database failed to save transaction" [] true;
      SpanEnd (root_span env w) ].

Definition success_epilogue (env : oracle) (w : world) : list event :=
    [ DbCommit (connections w); DbClose (connections w); SpanEnd (root_span env w) ].

  (** The rows of [table] before the request, once [get_conn] has run. *)
Definition rows_before (table : string) (w : world) : list txn_row :=
    default [] (ensure_table "transactions" (db w) !! table).

Definition new_row (txn : TransactionModel) (table : string) (w : world) : txn_row :=
    {| row_id := next_rowid (rows_before table w);
       row_amount := amount txn; row_currency := currency txn; row_status := "SUCCESS" |}.

Definition counter_sample (txn : TransactionModel) : sample :=
    {| instrument := "business.transactions.total"; sample_value := VInt 1;
       sample_labels := [("currency", currency txn); ("status", "success")] |}.

Definition value_sample (txn : TransactionModel) : sample :=
    {| instrument := "business.transaction.value"; sample_value := VFloat (amount txn);
       sample_labels := [("currency", currency txn)] |}.

Definition success_body (env : oracle) (w : world) : dict :=
    [("status", VStr "processed"); ("trace_id", VInt (sp_trace_id (root_span env w)))].

  (** The world after a request whose [INSERT] hit the missing table. *)
Definition failed_world (env : oracle) (txn : TransactionModel) (w : world) : world :=
    {| db := ensure_table "transactions" (db w);
       connections := S (connections w);
       open_connections := connections w :: open_connections w;
       current_span := current_span w;
       span_count := S (S (span_count w));
       apm_transaction := apm_transaction w;
       events := events w ++ prologue env txn w ++ attempt txn "fake_db" w
                   ++ failure_epilogue env w;
       samples := samples w;
       rng_calls := S (rng_calls w);
       clock_calls := S (clock_calls w) |}.

  (** The world after a request whose [INSERT] into [table] went through. *)
Definition stored_world (env : oracle) (txn : TransactionModel) (table : string)
      (w : world) : world :=
    {| db := <[table := rows_before table w ++ [new_row txn table w]]>
               (ensure_table "transactions" (db w));
       connections := S (connections w);
       open_connections :=
         filter (fun c => c <> connections w) (connections w :: open_connections w);
       current_span := current_span w;
       span_count := S (S (span_count w));
       apm_transaction := apm_transaction w;
       events := events w ++ prologue env txn w ++ attempt txn table w
                   ++ success_epilogue env w;
       samples := samples w ++ [counter_sample txn; value_sample txn];
       rng_calls := S (rng_calls w);
       clock_calls := S (clock_calls w) |}.

End Run4.

Module Maint4.

Definition task_span (env : oracle) (w : world) : span :=
    Run4.new_span env "system_maintenance" w.

  (** The values the list comprehension draws for [mult]. *)
Definition drawn (env : oracle) (mult : Z) (w : world) : list float :=
    map (random_random env) (seq (rng_calls w) (range_len (mult * 100000))).

  (** [(time.perf_counter() - start) * 1000] for the two readings of a run. *)
Definition duration (env : oracle) (w : world) : float :=
    mul (sub (perf_counter env (S (clock_calls w))) (perf_counter env (clock_calls w)))
        thousand.

Definition duration_sample (env : oracle) (w : world) : sample :=
    {| instrument := "app.processing.duration"; sample_value := VFloat (duration env w);
       sample_labels := [("task_type", "sort")] |}.

Definition done_body (env : oracle) (w : world) : dict :=
    [("status", VStr "done"); ("duration_ms", VFloat (duration env w))].

Definition final_world (env : oracle) (mult : Z) (w : world) : world :=
    {| db := db w;
       connections := connections w;
       open_connections := open_connections w;
       current_span := current_span w;
       span_count := S (span_count w);
       apm_transaction := apm_transaction w;
       events := events w ++
         [ SpanStart (task_span env w);
           SetAttribute (task_span env w) "maintenance.intensity" (VInt mult);
           Log WARNING "Starting high-intensity maintenance task." [] false;
           ListSorted (list_sort (drawn env mult w));
           Log INFO "Maintenance finished in {:.2f}ms" [VFloat (duration env w)] false;
           SpanEnd (task_span env w) ];
       samples := samples w ++ [duration_sample env w];
       rng_calls := rng_calls w + range_len (mult * 100000);
       clock_calls := S (S (clock_calls w)) |}.

End Maint4.

(** A request as it reaches the service, and a sequence of requests served
    one after the other by variant 1. *)
Record request := {
  req_txn : TransactionModel;
  req_fail_rate : float
}.

Fixpoint run_requests (env : oracle) (reqs : list request) (w : world)
    : list response * world :=
  match reqs with
  | [] => ([], w)
  | r :: rest =>
      let (resp, w1) := serve (App4.process_transaction env (req_txn r) (req_fail_rate r)) w in
      let (resps, w2) := run_requests env rest w1 in
      (resp :: resps, w2)
  end.

Definition is_transactions_total (s : sample) : bool :=
  String.eqb (instrument s) "business.transactions.total".

(** Samples recorded on the [transactions_total] counter. *)
Definition counter_samples (l : list sample) : list sample :=
  List.filter is_transactions_total l.

(** The requests that were answered with 200. *)
Fixpoint succeeded (reqs : list request) (resps : list response) : list request :=
  match reqs, resps with
  | r :: reqs', p :: resps' =>
      if Z.eqb (http_status p) 200 then r :: succeeded reqs' resps'
      else succeeded reqs' resps'
  | _, _ => []
  end.

Definition is_start_of (name : string) (e : event) : bool :=
  match e with
  | SpanStart s => String.eqb (sp_name s) name
  | _ => false
  end.

Definition is_end_of (handle : nat) (e : event) : bool :=
  match e with
  | SpanEnd s => Nat.eqb (sp_handle s) handle
  | _ => false
  end.

Definition is_db_event (e : event) : bool :=
  match e with
  | DbConnect _ | DbCreateTableIfNotExists _ | DbInsert _ _ _ _ | DbCommit _ | DbClose _ => true
  | _ => false
  end.

Fixpoint count_events (p : event -> bool) (l : list event) : nat :=
  match l with
  | [] => 0%nat
  | e :: l' => if p e then S (count_events p l') else count_events p l'
  end.

(** Python's [a <= b] read on adjacent list elements: no element is
    followed by a smaller one. *)
Definition not_followed_by_smaller (a b : float) : Prop := ltb b a = false.

(** Does [s] occur inside [msg]? *)
Definition embeds (msg s : string) : bool :=
  match String.index 0 s msg with
  | Some _ => true
  | None => false
  end.

(** Concrete inputs used to exercise the theorems. *)
Definition demo_oracle : oracle :=
  {| random_random := fun _ => half;
     perf_counter := fun n => of_Z (Z.of_nat n);
     generate_trace_id := fun n => 1000 + Z.of_nat n;
     generate_span_id := fun n => 7 + Z.of_nat n |}.

Definition frozen_clock_oracle : oracle :=
  {| random_random := fun _ => half;
     perf_counter := fun _ => one;
     generate_trace_id := fun n => 1000 + Z.of_nat n;
     generate_span_id := fun n => 7 + Z.of_nat n |}.

Definition fresh_world : world :=
  {| db := ∅; connections := 0; open_connections := []; current_span := None;
     span_count := 0; apm_transaction := Some 255; events := []; samples := [];
     rng_calls := 0; clock_calls := 0 |}.

Definition eur_100 : TransactionModel := {| amount := hundred; currency := "EUR" |}.

(** Rows of the [transactions] table as a later reader sees them. *)
Definition transactions_rows (w : world) : list txn_row :=
  default [] (select_all "transactions" w).






(** Trace ids of the spans started in a stretch of events. *)
Fixpoint started_trace_ids (l : list event) : list Z :=
  match l with
  | [] => []
  | SpanStart s :: l' => sp_trace_id s :: started_trace_ids l'
  | _ :: l' => started_trace_ids l'
  end.

(** A store in which somebody has created a table named [fake_db]. *)
Definition world_with_fake_db : world :=
  {| db := {["fake_db" := []]}; connections := 0; open_connections := [];
     current_span := None; span_count := 0; apm_transaction := Some 255;
     events := []; samples := []; rng_calls := 0; clock_calls := 0 |}.

Module Run5.

(** The span [capture_span name] opens in [w], if a transaction is active. *)
Definition new_span (env : oracle) (name : string) (handle : nat) (parent : option nat)
    (w : world) : option span :=
  (fun tid => {| sp_handle := handle; sp_name := name; sp_trace_id := tid;
                 sp_span_id := generate_span_id env handle; sp_parent := parent |})
  <$> apm_transaction w.

Definition root_span (env : oracle) (w : world) : option span :=
  new_span env "process_payment" (span_count w) (sp_handle <$> current_span w) w.

Definition fraud_span (env : oracle) (w : world) : option span :=
  new_span env "fraud_check" (S (span_count w)) (Some (span_count w)) w.

(** Events of a block run under [capture_span]. *)
Definition bracket (s : option span) (body : list event) : list event :=
  match s with
  | Some s => SpanStart s :: body ++ [SpanEnd s]
  | None => body
  end.

(** What [get_trace_id()] returns during the request. *)
Definition trace_id (w : world) : option string :=
  (fun z => App5.hex_digits 32 z "") <$> apm_transaction w.

Definition failure_tail : list event :=
  [ ApmCaptureException;
    ApmLabel [("business_status", VStr "failed")];
    ApmSetTransactionResult "FAILURE";
    Log ERROR "Database failed to save transaction" [] true ].

Definition success_tail (w : world) : list event :=
  [ DbCommit (connections w); DbClose (connections w);
    ApmLabel [("business_status", VStr "success")];
    ApmSetTransactionResult "SUCCESS" ].

Definition request_events (env : oracle) (txn : TransactionModel) (table : string)
    (tail : list event) (w : world) : list event :=
  bracket (root_span env w)
    ([ ApmLabel [("transaction_currency", VStr (currency txn));
                 ("transaction_amount", VFloat (amount txn))];
       Log INFO "Starting transaction processing for {} {}"
         [VFloat (amount txn); VStr (currency txn)] false ]
     ++ bracket (fraud_span env w)
          [ CpuLoop 500000; Log INFO "Fraud check passed successfully" [] false ]
     ++ Run4.attempt txn table w
     ++ tail).

Definition failure_response (w : world) : response :=
  {| http_status := 500;
     http_body := [("detail",
       VStr (String.append "Transaction failed. trace_id: "
               (App5.format_trace_id (trace_id w))))] |}.

Definition success_response (w : world) : response :=
  {| http_status := 200;
     http_body := [("status", VStr "processed");
                   ("trace_id", App5.trace_id_value (trace_id w))] |}.

End Run5.

Definition is_result (r : string) (e : event) : bool :=
  match e with
  | ApmSetTransactionResult r' => String.eqb r' r
  | _ => false
  end.

Definition is_span_event (e : event) : bool :=
  match e with
  | SpanStart _ | SpanEnd _ => true
  | _ => false
  end.

(** A request that reaches the handler outside any APM transaction. *)
Definition world_without_transaction : world :=
  {| db := ∅; connections := 0; open_connections := []; current_span := None;
     span_count := 0; apm_transaction := None; events := []; samples := [];
     rng_calls := 0; clock_calls := 0 |}.

(** A float as the hardware holds it: a canonical binary64 value. *)
Definition binary64 (x : float) : bool := valid_binary prec emax x.

(** Strictly positive, with an exponent in the binary64 range. *)
Definition positive_float (x : float) : Prop :=
  match x with
  | S754_infinity false => True
  | S754_finite false _ e => emin prec emax <= e
  | _ => False
  end.

(** * Properties *)

(** ** The order on floats *)

Section FloatOrder.
Implicit Types a b c : float.

Lemma compare_cont_Eq (p q : positive) : Pos.compare_cont Eq p q = (p ?= q)%positive.
Proof. reflexivity. Qed.

Ltac cmp_cases :=
    repeat match goal with
    | |- context [(?x ?= ?y)%Z] => destruct (Z.compare_spec x y)
    | H : context [(?x ?= ?y)%Z] |- _ => destruct (Z.compare_spec x y)
    | |- context [(?x ?= ?y)%positive] => destruct (Pos.compare_spec x y)
    | H : context [(?x ?= ?y)%positive] |- _ => destruct (Pos.compare_spec x y)
    end.

Ltac by_cases :=
    simpl; try congruence; intros;
    change PosDef.Pos.compare_cont with Pos.compare_cont in *;
    rewrite ?compare_cont_Eq in *;
    cmp_cases; simpl in *; subst; try congruence; try lia.

Lemma ltb_leb_trans a b c : ltb a b = true -> leb b c = true -> ltb a c = true.
Proof.
    unfold ltb, leb, SFltb, SFleb.
    destruct a as [[]|[]| |[] ma ea], b as [[]|[]| |[] mb eb], c as [[]|[]| |[] mc ec];
      by_cases.
Qed.

Lemma leb_trans a b c : leb a b = true -> leb b c = true -> leb a c = true.
Proof.
    unfold leb, SFleb.
    destruct a as [[]|[]| |[] ma ea], b as [[]|[]| |[] mb eb], c as [[]|[]| |[] mc ec];
      by_cases.
Qed.

Lemma leb_ltb_false a b : leb a b = true -> ltb b a = false.
Proof.
    unfold ltb, leb, SFltb, SFleb.
    destruct a as [[]|[]| |[] ma ea], b as [[]|[]| |[] mb eb]; by_cases.
Qed.

Lemma ltb_asym a b : ltb a b = true -> ltb b a = false.
Proof.
    unfold ltb, SFltb.
    destruct a as [[]|[]| |[] ma ea], b as [[]|[]| |[] mb eb]; by_cases.
Qed.

  (** A draw from [[0.0, 1.0)] is below every [fail_rate >= 1.0] and below
      no [fail_rate <= 0.0]. *)
Lemma unit_draw_below a f : unit_interval a = true -> leb one f = true -> ltb a f = true.
Proof.
    unfold unit_interval. intros [_ H]%andb_prop Hf. exact (ltb_leb_trans _ _ _ H Hf).
Qed.

Lemma unit_draw_not_below a f : unit_interval a = true -> leb f zero = true -> ltb a f = false.
Proof.
    unfold unit_interval. intros [H _]%andb_prop Hf.
    apply leb_ltb_false. exact (leb_trans _ _ _ Hf H).
Qed.
End FloatOrder.

(** ** The store *)

Lemma ensure_table_lookup_ne t t' d : t <> t' -> ensure_table t d !! t' = d !! t'.
Proof.
  intros H. unfold ensure_table. destruct (d !! t); [done|]. by rewrite lookup_insert_ne.
Qed.

Lemma ensure_table_lookup t d : ensure_table t d !! t = Some (default [] (d !! t)).
Proof.
  unfold ensure_table. destruct (d !! t) eqn:E; simpl; [done|]. by rewrite lookup_insert_eq.
Qed.

(** ** Running the handlers symbolically *)

Ltac py_step :=
  cbv beta iota zeta delta
    [App4.process_transaction App4.maintenance_task App4.start_as_current_span App4.start_span
     App4.get_conn App4.set_attribute App4.record_exception App4.set_status
     App4.transaction_counter_add App4.transaction_value_record App4.processing_duration_record
     App5.process_transaction App5.maintenance_task App5.capture_span App5.get_conn
     App5.label App5.set_transaction_result App5.capture_exception App5.get_trace_id
     try_except bind ret raise emit logger_info logger_warning logger_error record_sample
     time_perf_counter random_call sqlite3_connect create_table_if_not_exists
     execute_insert commit close
     set_db set_connections set_current_span set_span_count set_events set_samples
     set_rng_calls set_clock_calls
     db connections open_connections current_span span_count apm_transaction events samples
     rng_calls clock_calls conn_id conn_pending
     Run4.failed_world Run4.stored_world Run4.prologue Run4.attempt Run4.failure_epilogue
     Run4.success_epilogue Run4.root_span Run4.fraud_span Run4.new_span Run4.success_body
     Run4.rows_before Run4.new_row Run4.counter_sample Run4.value_sample draw fake_db_absent].

Lemma process_transaction_injected env txn f w :
  ltb (draw env w) f = true -> fake_db_absent w ->
  App4.process_transaction env txn f w
  = (Raise (HTTPException 500 "Transaction failed"), Run4.failed_world env txn w).
Proof.
  intros Hlt Hdb. destruct w; revert Hlt Hdb. py_step. intros Hlt Hdb.
  rewrite Hlt. py_step. rewrite ensure_table_lookup_ne by done. rewrite Hdb. py_step.
  rewrite <- !app_assoc. reflexivity.
Qed.

Lemma process_transaction_routed env txn f w table rows :
  table = (if ltb (draw env w) f then "fake_db" else "transactions") ->
  ensure_table "transactions" (db w) !! table = Some rows ->
  App4.process_transaction env txn f w
  = (Return (Run4.success_body env w), Run4.stored_world env txn table w).
Proof.
  intros Ht Hdb. destruct w; revert Ht Hdb. py_step. intros Ht Hdb.
  destruct (ltb _ f); subst table; py_step; rewrite Hdb; py_step; simpl;
    unfold apply_insert; simpl; rewrite Hdb;
    rewrite <- !app_assoc, ?app_nil_r; reflexivity.
Qed.

Lemma process_transaction_stored env txn f w :
  ltb (draw env w) f = false ->
  App4.process_transaction env txn f w
  = (Return (Run4.success_body env w), Run4.stored_world env txn "transactions" w).
Proof.
  intros Hlt. eapply process_transaction_routed.
  - by rewrite Hlt.
  - apply ensure_table_lookup.
Qed.

(** Every run of the handler is one of the two above. *)
Lemma process_transaction_cases env txn f w :
  (ltb (draw env w) f = true /\ fake_db_absent w /\
   App4.process_transaction env txn f w
   = (Raise (HTTPException 500 "Transaction failed"), Run4.failed_world env txn w))
  \/
  (exists table rows,
     table = (if ltb (draw env w) f then "fake_db" else "transactions") /\
     ensure_table "transactions" (db w) !! table = Some rows /\
     App4.process_transaction env txn f w
     = (Return (Run4.success_body env w), Run4.stored_world env txn table w)).
Proof.
  destruct (ltb (draw env w) f) eqn:Hlt.
  - destruct (db w !! "fake_db") as [rows|] eqn:Hdb.
    + right. exists "fake_db", rows.
      assert (ensure_table "transactions" (db w) !! "fake_db" = Some rows) as H
        by (by rewrite ensure_table_lookup_ne).
      split; [done|]. split; [done|].
      eapply process_transaction_routed; [by rewrite Hlt|exact H].
    + left. split; [done|]. split; [done|]. by apply process_transaction_injected.
  - right. exists "transactions", (default [] (db w !! "transactions")).
    split; [done|]. split; [apply ensure_table_lookup|].
    by apply process_transaction_stored.
Qed.

(** The handler never creates the table its injected failure relies on. *)
Lemma process_transaction_keeps_fake_db_absent env txn f w :
  fake_db_absent w -> fake_db_absent (snd (App4.process_transaction env txn f w)).
Proof.
  intros Hdb. unfold fake_db_absent in *.
  destruct (process_transaction_cases env txn f w)
    as [(_ & _ & ->)|(t & rows & Ht & Hrows & ->)]; simpl.
  - by rewrite ensure_table_lookup_ne.
  - destruct (ltb (draw env w) f); subst t.
    + rewrite ensure_table_lookup_ne in Hrows by done. congruence.
    + rewrite lookup_insert_ne by done. by rewrite ensure_table_lookup_ne.
Qed.

(** The handler looks at [fail_rate] only through the comparison with the
    draw. *)
Lemma process_transaction_fail_rate env txn f f' w :
  ltb (draw env w) f = ltb (draw env w) f' ->
  App4.process_transaction env txn f w = App4.process_transaction env txn f' w.
Proof.
  destruct w. py_step. intros H. rewrite H. reflexivity.
Qed.

(** ** Failure injection *)

(** C3: with [fail_rate = 1.0] the request is answered 500, with
    [fail_rate = 0.0] it is answered 200 with status "processed" (for a
    draw in [0.0, 1.0) and a store in which [fake_db] does not exist). *)
Theorem C3_fail_rate_extremes env txn w :
  unit_interval (draw env w) = true ->
  fake_db_absent w ->
  (ltb (draw env w) one = true /\
   http_status (fst (serve (App4.process_transaction env txn one) w)) = 500)
  /\
  (ltb (draw env w) zero = false /\
   fst (serve (App4.process_transaction env txn zero) w)
   = {| http_status := 200;
        http_body := [("status", VStr "processed");
                      ("trace_id", VInt (sp_trace_id (Run4.root_span env w)))] |}).
Proof.
  intros Hd Hdb.
  assert (ltb (draw env w) one = true) as H1 by (apply unit_draw_below; done).
  assert (ltb (draw env w) zero = false) as H0 by (apply unit_draw_not_below; done).
  repeat split; try done; unfold serve.
  - by rewrite process_transaction_injected.
  - by rewrite process_transaction_stored.
Qed.

Lemma C3_fail_rate_extremes_witness :
  unit_interval (draw demo_oracle fresh_world) = true /\
  fake_db_absent fresh_world /\
  http_status (fst (serve (App4.process_transaction demo_oracle eur_100 one) fresh_world)) = 500 /\
  http_status (fst (serve (App4.process_transaction demo_oracle eur_100 zero) fresh_world)) = 200.
Proof.
  assert (unit_interval (draw demo_oracle fresh_world) = true) as Hd by reflexivity.
  assert (fake_db_absent fresh_world) as Hdb by reflexivity.
  destruct (C3_fail_rate_extremes demo_oracle eur_100 fresh_world Hd Hdb)
    as [[_ H500] [_ H200]].
  split; [exact Hd|]. split; [exact Hdb|]. split; [exact H500|].
  rewrite H200. reflexivity.
Defined.

(** C4: a call whose draw is below [fail_rate] is sent to the table [fake_db],
    which does not exist, and fails with "no such table: fake_db"; every
    other call is sent to [transactions], where the row is appended. *)
Theorem C4_injection_routes_to_missing_table env txn f w :
  fake_db_absent w ->
  let r := App4.process_transaction env txn f w in
  if ltb (draw env w) f then
    events (snd r) = events w ++ Run4.prologue env txn w ++ Run4.attempt txn "fake_db" w
                       ++ Run4.failure_epilogue env w
    /\ In (RecordException (Run4.root_span env w)
             (OperationalError "no such table: fake_db")) (events (snd r))
    /\ db (snd r) = ensure_table "transactions" (db w)
    /\ fst r = Raise (HTTPException 500 "Transaction failed")
  else
    events (snd r) = events w ++ Run4.prologue env txn w ++ Run4.attempt txn "transactions" w
                       ++ Run4.success_epilogue env w
    /\ db (snd r) !! "transactions"
        = Some (default [] (db w !! "transactions") ++ [Run4.new_row txn "transactions" w])
    /\ db (snd r) !! "fake_db" = None
    /\ fst r = Return (Run4.success_body env w).
Proof.
  intros Hdb r. subst r. destruct (ltb (draw env w) f) eqn:Hlt.
  - rewrite process_transaction_injected by done. simpl.
    repeat split; try reflexivity.
    apply in_or_app. right. simpl.
    repeat (first [left; reflexivity | right]).
  - rewrite process_transaction_stored by done. simpl.
    repeat split; try reflexivity.
    + rewrite lookup_insert_eq. unfold Run4.rows_before.
      by rewrite ensure_table_lookup.
    + rewrite lookup_insert_ne by done. by rewrite ensure_table_lookup_ne.
Qed.

Lemma C4_injection_routes_to_missing_table_witness :
  fake_db_absent fresh_world /\
  fst (App4.process_transaction demo_oracle eur_100 one fresh_world)
  = Raise (HTTPException 500 "Transaction failed").
Proof.
  assert (fake_db_absent fresh_world) as Hdb by reflexivity.
  split; [exact Hdb|].
  pose proof (C4_injection_routes_to_missing_table demo_oracle eur_100 one fresh_world Hdb) as H.
  change (ltb (draw demo_oracle fresh_world) one) with true in H.
  exact (proj2 (proj2 (proj2 H))).
Defined.

(** C6: a request with amount 100.0 and currency "EUR" that takes the
    success path leaves exactly one more row in [transactions], holding
    100.0, "EUR" and "SUCCESS", and a later read of the table returns it. *)
Theorem C6_round_trip env f w :
  ltb (draw env w) f = false ->
  let w' := snd (App4.process_transaction env eur_100 f w) in
  let before := default [] (select_all "transactions" w) in
  select_all "transactions" w'
  = Some (before ++ [{| row_id := next_rowid before; row_amount := hundred;
                        row_currency := "EUR"; row_status := "SUCCESS" |}])
  /\ (forall t, t <> "transactions" -> select_all t w' = select_all t w).
Proof.
  intros Hlt w' before. subst w' before. unfold select_all.
  rewrite process_transaction_stored by done. simpl.
  split.
  - rewrite lookup_insert_eq. unfold Run4.new_row, Run4.rows_before.
    by rewrite ensure_table_lookup.
  - intros t Ht. rewrite lookup_insert_ne by done. by rewrite ensure_table_lookup_ne.
Qed.

Lemma C6_round_trip_witness :
  ltb (draw demo_oracle fresh_world) zero = false /\
  select_all "transactions" (snd (App4.process_transaction demo_oracle eur_100 zero fresh_world))
  = Some [{| row_id := 1; row_amount := hundred; row_currency := "EUR";
             row_status := "SUCCESS" |}].
Proof.
  assert (ltb (draw demo_oracle fresh_world) zero = false) as Hlt by reflexivity.
  split; [exact Hlt|].
  exact (proj1 (C6_round_trip demo_oracle zero fresh_world Hlt)).
Defined.

(** C10: [fail_rate] is not validated.  For a draw in [0.0, 1.0), every
    [fail_rate >= 1.0] takes the injected-failure branch: the handler sends
    its [INSERT] to [fake_db] (and so fails with 500 when that table is
    missing), exactly as with 1.0; and every [fail_rate <= 0.0] never takes
    it: the handler inserts into [transactions] and returns, exactly as
    with 0.0. *)
Theorem C10_out_of_range_fail_rate env txn hi lo w :
  unit_interval (draw env w) = true ->
  leb one hi = true ->
  leb lo zero = true ->
  (ltb (draw env w) hi = true
   /\ App4.process_transaction env txn hi w = App4.process_transaction env txn one w
   /\ (exists rest,
         events (snd (App4.process_transaction env txn hi w))
         = events w ++ Run4.prologue env txn w
           ++ [ DbConnect (connections w);
                DbCreateTableIfNotExists "transactions";
                DbInsert "fake_db" (amount txn) (currency txn) "SUCCESS" ]
           ++ rest)
   /\ (fake_db_absent w ->
       App4.process_transaction env txn hi w
       = (Raise (HTTPException 500 "Transaction failed"), Run4.failed_world env txn w)))
  /\
  (ltb (draw env w) lo = false
   /\ App4.process_transaction env txn lo w = App4.process_transaction env txn zero w
   /\ App4.process_transaction env txn lo w
      = (Return (Run4.success_body env w), Run4.stored_world env txn "transactions" w)
   /\ events (snd (App4.process_transaction env txn lo w))
      = events w ++ Run4.prologue env txn w
        ++ [ DbConnect (connections w);
             DbCreateTableIfNotExists "transactions";
             DbInsert "transactions" (amount txn) (currency txn) "SUCCESS" ]
        ++ Run4.success_epilogue env w).
Proof.
  intros Hd Hhi Hlo.
  assert (ltb (draw env w) hi = true) as H1 by (apply unit_draw_below; done).
  assert (ltb (draw env w) one = true) as H2 by (apply unit_draw_below; done).
  assert (ltb (draw env w) lo = false) as H3 by (apply unit_draw_not_below; done).
  assert (ltb (draw env w) zero = false) as H4 by (apply unit_draw_not_below; done).
  split.
  - split; [assumption|].
    split; [apply process_transaction_fail_rate; congruence|].
    split.
    + destruct (process_transaction_cases env txn hi w)
        as [(_ & _ & ->)|(t & rows & Ht & _ & ->)].
      * exists (Run4.failure_epilogue env w). reflexivity.
      * rewrite H1 in Ht. subst t. exists (Run4.success_epilogue env w). reflexivity.
    + intros Hdb. by apply process_transaction_injected.
  - split; [assumption|].
    split; [apply process_transaction_fail_rate; congruence|].
    rewrite (process_transaction_stored env txn lo w H3).
    split; reflexivity.
Qed.

Lemma C10_out_of_range_fail_rate_witness :
  unit_interval (draw demo_oracle fresh_world) = true /\
  leb one two = true /\
  leb minus_one zero = true /\
  fake_db_absent fresh_world /\
  App4.process_transaction demo_oracle eur_100 two fresh_world
  = App4.process_transaction demo_oracle eur_100 one fresh_world /\
  fst (App4.process_transaction demo_oracle eur_100 two fresh_world)
  = Raise (HTTPException 500 "Transaction failed") /\
  App4.process_transaction demo_oracle eur_100 minus_one fresh_world
  = App4.process_transaction demo_oracle eur_100 zero fresh_world.
Proof.
  assert (unit_interval (draw demo_oracle fresh_world) = true) as Hd by reflexivity.
  assert (leb one two = true) as Hhi by reflexivity.
  assert (leb minus_one zero = true) as Hlo by reflexivity.
  assert (fake_db_absent fresh_world) as Hdb by reflexivity.
  destruct (C10_out_of_range_fail_rate demo_oracle eur_100 two minus_one fresh_world Hd Hhi Hlo)
    as [(_ & H1 & _ & Hraise) (_ & H2 & _)].
  split; [exact Hd|]. split; [exact Hhi|]. split; [exact Hlo|]. split; [exact Hdb|].
  split; [exact H1|]. split; [|exact H2].
  rewrite (Hraise Hdb). reflexivity.
Defined.

(** ** Span life cycle *)

(** However the body leaves, the context that was current on entry is
    current again afterwards. *)
Lemma start_as_current_span_restores {A} env name (body : span -> M A) w :
  current_span (snd (App4.start_as_current_span env name body w)) = current_span w.
Proof.
  unfold App4.start_as_current_span, App4.start_span.
  destruct (body _ _) as [r w2]. reflexivity.
Qed.

Lemma eqb_succ_self n : Nat.eqb (S n) n = false.
Proof. apply Nat.eqb_neq. lia. Qed.

(** The events a request adds to the record. *)
Lemma process_transaction_events env txn f w :
  exists table rest,
    table = (if ltb (draw env w) f then "fake_db" else "transactions") /\
    (rest = Run4.failure_epilogue env w \/ rest = Run4.success_epilogue env w) /\
    events (snd (App4.process_transaction env txn f w))
    = events w ++ Run4.prologue env txn w ++ Run4.attempt txn table w ++ rest.
Proof.
  destruct (process_transaction_cases env txn f w)
    as [(Hlt & _ & ->)|(t & rows & Ht & _ & ->)].
  - exists "fake_db", (Run4.failure_epilogue env w). rewrite Hlt.
    split; [done|]. split; [by left|]. done.
  - exists t, (Run4.success_epilogue env w).
    split; [done|]. split; [by right|]. done.
Qed.

(** C5: a request opens exactly one span named [process_payment], a child
    of whatever span was active on entry; that span is ended exactly once,
    as the last thing the request does, whether or not the persistence step
    raised; and afterwards the span that was active on entry is active
    again. *)
Theorem C5_root_span_closed_once env txn f w :
  let w' := snd (App4.process_transaction env txn f w) in
  let root := Run4.root_span env w in
  exists delta,
    events w' = events w ++ delta
    /\ count_events (is_start_of "process_payment") delta = 1%nat
    /\ head delta = Some (SpanStart root)
    /\ sp_parent root = sp_handle <$> current_span w
    /\ count_events (is_end_of (sp_handle root)) delta = 1%nat
    /\ last delta = Some (SpanEnd root)
    /\ current_span w' = current_span w.
Proof.
  intros w' root. subst w' root.
  destruct (process_transaction_events env txn f w) as (t & rest & _ & Hrest & Hev).
  exists (Run4.prologue env txn w ++ Run4.attempt txn t w ++ rest).
  split; [exact Hev|].
  assert (count_events (is_start_of "process_payment") rest = 0%nat
          /\ count_events (is_end_of (span_count w)) rest = 1%nat
          /\ last rest = Some (SpanEnd (Run4.root_span env w))) as (Hs & He & Hl).
  { destruct Hrest as [-> | ->]; cbn -[Nat.eqb]; rewrite Nat.eqb_refl;
      repeat split; reflexivity. }
  split; [simpl; by rewrite Hs|].
  split; [reflexivity|].
  split; [reflexivity|].
  split.
  { cbn -[Nat.eqb]. rewrite !eqb_succ_self. exact He. }
  split.
  { rewrite !last_app. by rewrite Hl. }
  apply start_as_current_span_restores.
Qed.

(** C8: the handler first opens the span [process_payment] and sets the
    currency and amount attributes on it, then runs the fixed 500000-step
    loop and logs an informational line inside a child span [fraud_check],
    and only after that span has ended touches the database. *)
Theorem C8_steps_in_order env txn f w :
  let w' := snd (App4.process_transaction env txn f w) in
  let root := Run4.root_span env w in
  let fraud := Run4.fraud_span env w in
  exists table rest,
    table = (if ltb (draw env w) f then "fake_db" else "transactions")
    /\ events w'
        = events w
          ++ [ SpanStart root;
               SetAttribute root "transaction.currency" (VStr (currency txn));
               SetAttribute root "transaction.amount" (VFloat (amount txn));
               Log INFO "Starting transaction processing for {} {}"
                 [VFloat (amount txn); VStr (currency txn)] false;
               SpanStart fraud;
               CpuLoop 500000;
               Log INFO "Fraud check passed successfully" [] false;
               SpanEnd fraud ]
          ++ [ DbConnect (connections w);
               DbCreateTableIfNotExists "transactions";
               DbInsert table (amount txn) (currency txn) "SUCCESS" ]
          ++ rest
    /\ sp_name root = "process_payment"
    /\ sp_name fraud = "fraud_check"
    /\ sp_parent fraud = Some (sp_handle root)
    /\ count_events is_db_event (events w') = (count_events is_db_event (events w)
         + count_events is_db_event
             ([DbConnect (connections w); DbCreateTableIfNotExists "transactions";
               DbInsert table (amount txn) (currency txn) "SUCCESS"] ++ rest))%nat.
Proof.
  intros w' root fraud. subst w' root fraud.
  destruct (process_transaction_events env txn f w) as (t & rest & Ht & Hrest & Hev).
  exists t, rest.
  split; [exact Ht|]. split; [exact Hev|].
  split; [reflexivity|]. split; [reflexivity|]. split; [reflexivity|].
  rewrite Hev. clear Hev.
  induction (events w) as [|e l IH]; [reflexivity|].
  cbn [app count_events]. destruct (is_db_event e); cbn [Nat.add]; by rewrite IH.
Qed.

(** ** Metrics *)

Lemma counter_samples_app l l' :
  counter_samples (l ++ l') = counter_samples l ++ counter_samples l'.
Proof. apply List.filter_app. Qed.

(** One request: a 200 comes with one sample on the counter, anything else
    with none. *)
Lemma serve_process_transaction_samples env txn f w :
  let r := serve (App4.process_transaction env txn f) w in
  (http_status (fst r) = 500 /\ samples (snd r) = samples w)
  \/
  (http_status (fst r) = 200 /\
   samples (snd r) = samples w ++ [Run4.counter_sample txn; Run4.value_sample txn]).
Proof.
  unfold serve.
  destruct (process_transaction_cases env txn f w)
    as [(_ & _ & ->)|(t & rows & _ & _ & ->)]; [left|right]; done.
Qed.

(** C2: over any sequence of requests, the [transactions_total] counter
    receives one sample for each request answered 200 and none for the
    others; each sample carries the request's currency and the status
    label "success". *)
Theorem C2_counter_tracks_successes env reqs w :
  let r := run_requests env reqs w in
  length (fst r) = length reqs
  /\ counter_samples (samples (snd r))
      = counter_samples (samples w)
        ++ map (fun q => Run4.counter_sample (req_txn q)) (succeeded reqs (fst r)).
Proof.
  revert w. induction reqs as [|q reqs IH]; intros w.
  - simpl. by rewrite app_nil_r.
  - cbn [run_requests].
    pose proof (serve_process_transaction_samples env (req_txn q) (req_fail_rate q) w) as H1.
    destruct (serve (App4.process_transaction env (req_txn q) (req_fail_rate q)) w)
      as [resp w1].
    specialize (IH w1). destruct (run_requests env reqs w1) as [resps w2].
    cbn [fst snd] in *. destruct IH as [IHlen IHs].
    split; [cbn [length]; by rewrite IHlen|].
    rewrite IHs. cbn [succeeded].
    destruct H1 as [[-> ->]|[-> ->]]; cbn [Z.eqb Pos.eqb].
    + reflexivity.
    + rewrite counter_samples_app. cbn [map]. rewrite <- app_assoc. reflexivity.
Qed.

(** C2, as stated, fails: a request whose write is sent to the missing table
    is answered 500 and leaves no sample on the counter. *)
Lemma C2_failed_request_emits_no_sample :
  let reqs := [{| req_txn := eur_100; req_fail_rate := one |}] in
  let r := run_requests demo_oracle reqs fresh_world in
  map http_status (fst r) = [500]
  /\ length (counter_samples (samples (snd r))) <> length reqs.
Proof.
  cbn [run_requests req_txn req_fail_rate]. unfold serve.
  rewrite process_transaction_injected by reflexivity.
  split; [reflexivity|]. simpl. discriminate.
Qed.

(** ** The maintenance task *)

Lemma random_list_run env n w :
  random_list env n w
  = (Return (map (random_random env) (seq (rng_calls w) n)),
     set_rng_calls (rng_calls w + n) w).
Proof.
  revert w. induction n as [|n IH]; intros w.
  - destruct w. cbn. by rewrite Nat.add_0_r.
  - cbn [random_list]. unfold bind at 1. unfold random_call at 1.
    unfold bind at 1. rewrite IH. unfold ret.
    destruct w. cbn. by rewrite Nat.add_succ_r.
Qed.

Lemma sort_insert_perm x l : Permutation (sort_insert x l) (x :: l).
Proof.
  induction l as [|y l IH]; [reflexivity|].
  cbn [sort_insert]. destruct (ltb y x); [|reflexivity].
  rewrite IH. apply perm_swap.
Qed.

Lemma list_sort_perm l : Permutation (list_sort l) l.
Proof.
  induction l as [|x l IH]; [reflexivity|].
  cbn [list_sort foldr]. fold (list_sort l).
  rewrite sort_insert_perm. by constructor.
Qed.

Lemma sort_insert_sorted x l :
  Sorted not_followed_by_smaller l -> Sorted not_followed_by_smaller (sort_insert x l).
Proof.
  induction l as [|y l IH]; intros Hs; cbn [sort_insert].
  - repeat constructor.
  - destruct (ltb y x) eqn:Hyx.
    + apply Sorted_inv in Hs as [Hs Hhd]. constructor; [by apply IH|].
      destruct l as [|z l]; cbn [sort_insert].
      * constructor. by apply ltb_asym.
      * destruct (ltb z x); constructor.
        -- by inversion Hhd.
        -- by apply ltb_asym.
    + constructor; [done|]. by constructor.
Qed.

Lemma list_sort_sorted l : Sorted not_followed_by_smaller (list_sort l).
Proof.
  induction l as [|x l IH]; [constructor|].
  cbn [list_sort foldr]. fold (list_sort l). by apply sort_insert_sorted.
Qed.

Lemma maintenance_task_run env mult w :
  App4.maintenance_task env mult w
  = (Return (Maint4.done_body env w), Maint4.final_world env mult w).
Proof.
  unfold App4.maintenance_task, App4.start_as_current_span, App4.start_span.
  cbv beta iota zeta delta [bind App4.set_attribute emit logger_warning time_perf_counter].
  rewrite random_list_run.
  destruct w. py_step.
  cbv beta iota zeta delta
    [Maint4.final_world Maint4.done_body Maint4.duration Maint4.duration_sample
     Maint4.drawn Maint4.task_span Run4.new_span rng_calls clock_calls span_count
     current_span events samples db connections open_connections apm_transaction].
  rewrite <- !app_assoc. reflexivity.
Qed.

(** ** Rounding keeps positive numbers positive *)

Section Rounding.
Local Open Scope Z_scope.

Lemma digits2_pos_size (m : positive) : digits2_pos m = Pos.size m.
Proof. induction m as [m IH|m IH|]; simpl; congruence. Qed.

Lemma digits2_pos_log2 (m : positive) : Z.pos (digits2_pos m) = Z.log2 (Z.pos m) + 1.
Proof. rewrite digits2_pos_size. destruct m; simpl; lia. Qed.

Lemma shr_1_digits s : Zdigits2 (shr_m (shr_1 s)) = Z.max 0 (Zdigits2 (shr_m s) - 1).
Proof.
  destruct s as [m r s]. destruct m as [|p|p]; [|destruct p..]; simpl; lia.
Qed.

Lemma shr_1_nonneg s : 0 <= shr_m s -> 0 <= shr_m (shr_1 s).
Proof.
  destruct s as [m r s]. destruct m as [|p|p]; [|destruct p..]; simpl; lia.
Qed.

Lemma iter_shr_1_digits p s :
  Zdigits2 (shr_m (SpecFloat.iter_pos shr_1 p s)) = Z.max 0 (Zdigits2 (shr_m s) - Z.pos p).
Proof.
  revert s. induction p as [p IH|p IH|]; intros s; simpl.
  - rewrite !IH, shr_1_digits. lia.
  - rewrite !IH. lia.
  - apply shr_1_digits.
Qed.

Lemma iter_shr_1_nonneg p s : 0 <= shr_m s -> 0 <= shr_m (SpecFloat.iter_pos shr_1 p s).
Proof.
  revert s. induction p as [p IH|p IH|]; intros s Hs; simpl.
  - apply IH, IH. by apply shr_1_nonneg.
  - by apply IH, IH.
  - by apply shr_1_nonneg.
Qed.

Lemma shr_m_shr_record_of_loc m l : shr_m (shr_record_of_loc m l) = m.
Proof. destruct l as [|[]]; reflexivity. Qed.

(** Shifting a positive mantissa to its canonical exponent leaves it
    positive as long as the number is not below the smallest subnormal. *)
Lemma shr_fexp_positive m e l :
  emin prec emax < Z.pos (digits2_pos m) + e ->
  exists m',
    shr_m (fst (shr_fexp prec emax (Z.pos m) e l)) = Z.pos m'
    /\ emin prec emax <= snd (shr_fexp prec emax (Z.pos m) e l).
Proof.
  intros H. unfold shr_fexp, shr, fexp. cbn [Zdigits2].
  set (d := Z.pos (digits2_pos m)) in *.
  destruct (Z.max (d + e - prec) (emin prec emax) - e) as [|p|p] eqn:Hn; cbn [fst snd].
  - rewrite shr_m_shr_record_of_loc. exists m. split; [reflexivity|lia].
  - pose proof (iter_shr_1_digits p (shr_record_of_loc (Z.pos m) l)) as Hd.
    pose proof (iter_shr_1_nonneg p (shr_record_of_loc (Z.pos m) l)) as Hp.
    rewrite shr_m_shr_record_of_loc in Hd, Hp. cbn [Zdigits2] in Hd. fold d in Hd.
    specialize (Hp ltac:(lia)).
    assert (Hprec : prec = 53) by reflexivity.
    destruct (shr_m (SpecFloat.iter_pos shr_1 p (shr_record_of_loc (Z.pos m) l))) as [|q|q].
    + cbn [Zdigits2] in Hd. lia.
    + exists q. split; [reflexivity|lia].
    + lia.
  - rewrite shr_m_shr_record_of_loc. exists m. split; [reflexivity|lia].
Qed.

Lemma round_nearest_even_positive m l :
  exists m', round_nearest_even (Z.pos m) l = Z.pos m'.
Proof.
  destruct l as [|[]]; simpl; eauto; destruct m; simpl; eauto.
Qed.

Lemma binary_round_aux_positive m e :
  emin prec emax < Z.pos (digits2_pos m) + e ->
  positive_float (binary_round_aux prec emax false (Z.pos m) e loc_Exact).
Proof.
  intros H. unfold binary_round_aux.
  destruct (shr_fexp_positive m e loc_Exact H) as (m1 & Hm1 & He1).
  destruct (shr_fexp prec emax (Z.pos m) e loc_Exact) as [mrs1 e1]. cbn [fst snd] in *.
  rewrite Hm1.
  destruct (round_nearest_even_positive m1 (loc_of_shr_record mrs1)) as (m2 & ->).
  assert (emin prec emax < Z.pos (digits2_pos m2) + e1) as H2 by lia.
  destruct (shr_fexp_positive m2 e1 loc_Exact H2) as (m3 & Hm3 & He3).
  destruct (shr_fexp prec emax (Z.pos m2) e1 loc_Exact) as [mrs2 e2]. cbn [fst snd] in *.
  rewrite Hm3. destruct (e2 <=? emax - prec); simpl; [exact He3|exact I].
Qed.


(** ** The sign of a measured duration *)

Lemma digits2_pos_mul_below (a b : positive) :
  Z.pos (digits2_pos a) + Z.pos (digits2_pos b) - 1 <= Z.pos (digits2_pos (a * b)).
Proof.
  rewrite !digits2_pos_log2, Pos2Z.inj_mul.
  pose proof (Z.log2_mul_below (Z.pos a) (Z.pos b) ltac:(lia) ltac:(lia)). lia.
Qed.

Lemma positive_float_gt_zero x : positive_float x -> ltb zero x = true.
Proof. destruct x as [|[]| |[] m e]; simpl; done. Qed.

(** Multiplying by 1000.0 keeps a positive float positive. *)
Lemma mul_thousand_positive x : positive_float x -> positive_float (mul x thousand).
Proof.
  destruct x as [|[]| |[] m e]; simpl; try done. intros He.
  unfold mul, thousand, SFmul. cbn [xorb].
  apply binary_round_aux_positive.
  pose proof (digits2_pos_mul_below m 8796093022208000) as H.
  change (Z.pos (digits2_pos 8796093022208000)) with 53 in H.
  pose proof (Pos2Z.is_pos (digits2_pos m)). lia.
Qed.

Lemma iter_xO_value (m d : positive) : Z.pos (Pos.iter xO m d) = Z.pos m * 2 ^ Z.pos d.
Proof.
  induction d as [|d IH] using Pos.peano_ind.
  - cbn [Pos.iter]. change (2 ^ 1) with 2. lia.
  - rewrite Pos.iter_succ, Pos2Z.inj_succ, Z.pow_succ_r by lia.
    rewrite Pos2Z.inj_xO, IH. lia.
Qed.

(** Aligning a mantissa on a smaller exponent keeps the number. *)
Lemma shl_align_value m e ez :
  ez <= e -> Z.pos (fst (shl_align m e ez)) = Z.pos m * 2 ^ (e - ez).
Proof.
  intros H. unfold shl_align.
  destruct (ez - e) as [|p|p] eqn:Hd; cbn [fst].
  - replace (e - ez) with 0 by lia. lia.
  - lia.
  - rewrite iter_xO_value. f_equal. f_equal. lia.
Qed.

Lemma binary_round_positive m e :
  emin prec emax <= e -> positive_float (binary_round prec emax false m e).
Proof.
  intros He. unfold binary_round.
  destruct (shl_align m e (fexp prec emax (Z.pos (digits2_pos m) + e))) as [mz ez] eqn:Hs.
  apply binary_round_aux_positive.
  unfold shl_align in Hs.
  pose proof (Pos2Z.is_pos (digits2_pos mz)).
  destruct (fexp prec emax (Z.pos (digits2_pos m) + e) - e) as [|p|p] eqn:Hd;
    inversion Hs; subst; unfold fexp in *; lia.
Qed.

(** What being canonical says about a mantissa and its exponent. *)
Lemma binary64_finite s m e :
  binary64 (S754_finite s m e) = true ->
  emin prec emax <= e
  /\ Z.pos m < 2 ^ 53
  /\ (emin prec emax < e -> 2 ^ 52 <= Z.pos m).
Proof.
  unfold binary64, valid_binary, bounded, canonical_mantissa, fexp.
  intros [Hc _]%andb_prop. apply Z.eqb_eq in Hc.
  pose proof (digits2_pos_log2 m) as Hd.
  pose proof (Z.log2_spec (Z.pos m) ltac:(lia)) as [Hlo Hhi].
  assert (Hprec : prec = 53) by reflexivity.
  split; [lia|]. split.
  - assert (Z.log2 (Z.pos m) + 1 <= 53) as Hle by lia.
    eapply Z.lt_le_trans; [exact Hhi|]. apply Z.pow_le_mono_r; lia.
  - intros He. assert (Z.log2 (Z.pos m) = 52) as Hl by lia.
    rewrite Hl in Hlo. exact Hlo.
Qed.

(** A mantissa with the larger exponent outweighs any canonical mantissa
    with the smaller one. *)
Lemma aligned_larger ma ea mb eb :
  emin prec emax <= eb -> eb < ea ->
  2 ^ 52 <= Z.pos ma -> Z.pos mb < 2 ^ 53 ->
  Z.pos mb < Z.pos ma * 2 ^ (ea - eb).
Proof.
  intros _ Hlt Ha Hb.
  assert (2 ^ 1 <= 2 ^ (ea - eb)) as Hp by (apply Z.pow_le_mono_r; lia).
  change (2 ^ 1) with 2 in Hp. change (2 ^ 53) with (2 ^ 52 * 2) in Hb. nia.
Qed.

(** The difference of two canonical floats, the second below the first,
    is a positive float. *)
Lemma sub_positive t1 t0 :
  binary64 t0 = true -> binary64 t1 = true ->
  ltb t0 t1 = true -> positive_float (sub t1 t0).
Proof.
  intros V0 V1 Hlt. unfold ltb, SFltb in Hlt.
  destruct t1 as [s1|s1| |s1 m1 e1], t0 as [s0|s0| |s0 m0 e0];
    try destruct s1; try destruct s0; simpl in Hlt; try discriminate;
    try exact I;
    repeat match goal with
    | H : binary64 (S754_finite _ _ _) = true |- _ =>
        apply binary64_finite in H as (? & ? & ?)
    end;
    try (simpl; assumption).
  all: unfold sub, SFsub, binary_normalize; cbn [cond_Zopp].
  - (* both negative *)
    assert (0 < - Z.pos (fst (shl_align m1 e1 (Z.min e1 e0)))
                - - Z.pos (fst (shl_align m0 e0 (Z.min e1 e0)))) as Hd.
    { rewrite !shl_align_value by lia.
      change PosDef.Pos.compare_cont with Pos.compare_cont in Hlt.
      destruct (Z.compare_spec e0 e1) as [->|He|He]; try discriminate.
      - rewrite Z.min_id, Z.sub_diag. rewrite compare_cont_Eq in Hlt.
        destruct (Pos.compare_spec m0 m1); simpl in Hlt; try discriminate. lia.
      - rewrite Z.min_l by lia. rewrite Z.sub_diag.
        assert (Z.pos m1 < Z.pos m0 * 2 ^ (e0 - e1)) by (apply aligned_larger; auto; lia).
        lia. }
    destruct (_ - _) as [|d|d]; try lia.
    apply binary_round_positive. lia.
  - (* a positive reading after a negative one *)
    destruct (_ - _) as [|d|d] eqn:Hd; try lia.
    apply binary_round_positive. lia.
  - (* both positive *)
    assert (0 < Z.pos (fst (shl_align m1 e1 (Z.min e1 e0)))
                - Z.pos (fst (shl_align m0 e0 (Z.min e1 e0)))) as Hd.
    { rewrite !shl_align_value by lia.
      change PosDef.Pos.compare_cont with Pos.compare_cont in Hlt.
      destruct (Z.compare_spec e0 e1) as [->|He|He]; try discriminate.
      - rewrite Z.min_id, Z.sub_diag. rewrite compare_cont_Eq in Hlt.
        destruct (Pos.compare_spec m0 m1); simpl in Hlt; try discriminate. lia.
      - rewrite Z.min_r by lia. rewrite Z.sub_diag.
        assert (Z.pos m0 < Z.pos m1 * 2 ^ (e1 - e0)) by (apply aligned_larger; auto; lia).
        lia. }
    destruct (_ - _) as [|d|d]; try lia.
    apply binary_round_positive. lia.
Qed.

(** Two canonical clock readings, the second after the first, give a
    positive number of milliseconds. *)
Lemma elapsed_ms_positive t0 t1 :
  binary64 t0 = true -> binary64 t1 = true -> ltb t0 t1 = true ->
  ltb zero (mul (sub t1 t0) thousand) = true.
Proof.
  intros V0 V1 Hlt.
  by apply positive_float_gt_zero, mul_thousand_positive, sub_positive.
Qed.

End Rounding.

(** C7: for every [mult] the maintenance task draws [max 0 (mult * 100000)]
    random values, sorts them, records one sample on the duration histogram
    with the label [task_type = "sort"], and returns status "done" with the
    same duration, which is the difference of the two clock readings times
    1000; that duration is greater than zero whenever the second reading is
    greater than the first. *)
Theorem C7_maintenance_task env mult w :
  let r := App4.maintenance_task env mult w in
  let n := Z.to_nat (mult * 100000) in
  let data := map (random_random env) (seq (rng_calls w) n) in
  let start := perf_counter env (clock_calls w) in
  let now := perf_counter env (S (clock_calls w)) in
  let duration := mul (sub now start) thousand in
  Z.of_nat n = Z.max 0 (mult * 100000)
  /\ length data = n
  /\ rng_calls (snd r) = (rng_calls w + n)%nat
  /\ In (ListSorted (list_sort data)) (events (snd r))
  /\ Sorted not_followed_by_smaller (list_sort data)
  /\ Permutation (list_sort data) data
  /\ samples (snd r)
      = samples w ++ [{| instrument := "app.processing.duration";
                          sample_value := VFloat duration;
                          sample_labels := [("task_type", "sort")] |}]
  /\ fst r = Return [("status", VStr "done"); ("duration_ms", VFloat duration)]
  /\ (binary64 start = true -> binary64 now = true -> ltb start now = true ->
      ltb zero duration = true).
Proof.
  intros r n data start now duration. subst r. rewrite maintenance_task_run.
  split; [subst n; lia|].
  split; [subst data; by rewrite length_map, length_seq|].
  split; [reflexivity|].
  split.
  { cbn [snd Maint4.final_world events]. apply in_or_app. right.
    do 3 right. left. reflexivity. }
  split; [apply list_sort_sorted|].
  split; [apply list_sort_perm|].
  split; [reflexivity|].
  split; [reflexivity|].
  apply elapsed_ms_positive.
Qed.

Lemma C7_maintenance_task_witness :
  let start := perf_counter demo_oracle (clock_calls fresh_world) in
  let now := perf_counter demo_oracle (S (clock_calls fresh_world)) in
  binary64 start = true /\ binary64 now = true /\ ltb start now = true
  /\ ltb zero (mul (sub now start) thousand) = true.
Proof.
  cbv zeta.
  assert (binary64 (perf_counter demo_oracle (clock_calls fresh_world)) = true)
    as V0 by reflexivity.
  assert (binary64 (perf_counter demo_oracle (S (clock_calls fresh_world))) = true)
    as V1 by reflexivity.
  assert (ltb (perf_counter demo_oracle (clock_calls fresh_world))
              (perf_counter demo_oracle (S (clock_calls fresh_world))) = true)
    as Hlt by reflexivity.
  split; [exact V0|]. split; [exact V1|]. split; [exact Hlt|].
  pose proof (C7_maintenance_task demo_oracle 5 fresh_world) as H. cbv zeta in H.
  destruct H as (_ & _ & _ & _ & _ & _ & _ & _ & Hpos).
  exact (Hpos V0 V1 Hlt).
Defined.

(** C7, as stated, fails: for [mult = -1] no value is drawn (not
    [-100000]), and when the clock gives the same reading twice the
    reported duration is [0.0], which is not positive. *)
Lemma C7_negative_mult_draws_nothing :
  let r := App4.maintenance_task frozen_clock_oracle (-1) fresh_world in
  Z.of_nat (rng_calls (snd r) - rng_calls fresh_world) <> (-1) * 100000
  /\ fst r = Return [("status", VStr "done"); ("duration_ms", VFloat zero)]
  /\ ltb zero zero = false.
Proof.
  cbv zeta. rewrite maintenance_task_run.
  split; [|split]; [|reflexivity|reflexivity].
  cbn [snd Maint4.final_world rng_calls fresh_world]. vm_compute. discriminate.
Qed.

(** ** The Elastic APM variant *)

Ltac in_events :=
  rewrite <- ?app_assoc; apply in_or_app; right; simpl;
  repeat (first [left; reflexivity | right]).

Lemma app5_process_transaction_injected env txn f w :
  ltb (draw env w) f = true -> fake_db_absent w ->
  let r := App5.process_transaction env txn f w in
  let t := (fun z => App5.hex_digits 32 z "") <$> apm_transaction w in
  fst r = Raise (HTTPException 500
            (String.append "Transaction failed. trace_id: " (App5.format_trace_id t)))
  /\ db (snd r) = ensure_table "transactions" (db w)
  /\ In (DbInsert "fake_db" (amount txn) (currency txn) "SUCCESS") (events (snd r)).
Proof.
  intros Hlt Hdb. destruct w as [d c oc cs sc [tid|] ev sm rc cc]; revert Hlt Hdb;
    py_step; intros Hlt Hdb; rewrite Hlt; py_step;
    rewrite ensure_table_lookup_ne by done; rewrite Hdb; py_step;
    cbn [fst snd fmap option_fmap option_map];
    (split; [reflexivity|]); (split; [reflexivity|]); in_events.
Qed.

Lemma app5_process_transaction_stored env txn f w :
  ltb (draw env w) f = false ->
  let r := App5.process_transaction env txn f w in
  let t := (fun z => App5.hex_digits 32 z "") <$> apm_transaction w in
  fst r = Return [("status", VStr "processed"); ("trace_id", App5.trace_id_value t)]
  /\ db (snd r) = <["transactions" := Run4.rows_before "transactions" w
                                        ++ [Run4.new_row txn "transactions" w]]>
                     (ensure_table "transactions" (db w))
  /\ In (DbInsert "transactions" (amount txn) (currency txn) "SUCCESS") (events (snd r)).
Proof.
  intros Hlt. destruct w as [d c oc cs sc [tid|] ev sm rc cc]; revert Hlt;
    py_step; intros Hlt; rewrite Hlt; py_step;
    rewrite ensure_table_lookup; py_step; cbn [fst snd fmap option_fmap option_map];
    unfold apply_insert; simpl; rewrite ensure_table_lookup; simpl; rewrite ?app_nil_r;
    (split; [reflexivity|]); (split; [reflexivity|]); in_events.
Qed.

(** In the Elastic variant the failure message carries the very trace id
    that the success path returns. *)
Lemma app5_failure_detail_carries_trace_id env txn f f' w tid :
  apm_transaction w = Some tid ->
  ltb (draw env w) f = true -> fake_db_absent w ->
  ltb (draw env w) f' = false ->
  let id := App5.hex_digits 32 tid "" in
  fst (App5.process_transaction env txn f w)
  = Raise (HTTPException 500 (String.append "Transaction failed. trace_id: " id))
  /\ fst (App5.process_transaction env txn f' w)
      = Return [("status", VStr "processed"); ("trace_id", VStr id)].
Proof.
  intros Htid Hlt Hdb Hlt' id. subst id.
  destruct (app5_process_transaction_injected env txn f w Hlt Hdb) as (-> & _).
  destruct (app5_process_transaction_stored env txn f' w Hlt') as (-> & _).
  rewrite Htid. split; reflexivity.
Qed.

(** C9: started in the same world with the same draw, the two variants take
    the same branch, send the same [INSERT] to the same table, leave the
    same tables behind and answer with the same status code: 500 when the
    failure is injected, 200 with status "processed" otherwise. *)
Theorem C9_variants_agree env txn f w :
  fake_db_absent w ->
  let r4 := serve (App4.process_transaction env txn f) w in
  let r5 := serve (App5.process_transaction env txn f) w in
  let injected := ltb (draw env w) f in
  let table := if injected then "fake_db" else "transactions" in
  http_status (fst r4) = (if injected then 500 else 200)
  /\ http_status (fst r5) = http_status (fst r4)
  /\ (if injected then True
      else head (http_body (fst r4)) = Some ("status", VStr "processed")
           /\ head (http_body (fst r5)) = Some ("status", VStr "processed"))
  /\ In (DbInsert table (amount txn) (currency txn) "SUCCESS") (events (snd r4))
  /\ In (DbInsert table (amount txn) (currency txn) "SUCCESS") (events (snd r5))
  /\ db (snd r5) = db (snd r4).
Proof.
  intros Hdb r4 r5 injected table. subst r4 r5 injected table. unfold serve.
  destruct (ltb (draw env w) f) eqn:Hlt.
  - destruct (app5_process_transaction_injected env txn f w Hlt Hdb) as (H1 & H2 & H3).
    destruct (App5.process_transaction env txn f w) as [o5 w5]. cbn [fst snd] in *.
    subst o5. rewrite process_transaction_injected by done. cbn [fst snd http_status].
    split; [reflexivity|]. split; [reflexivity|]. split; [exact I|].
    split; [|split; [exact H3|exact H2]].
    cbn [Run4.failed_world events]. in_events.
  - destruct (app5_process_transaction_stored env txn f w Hlt) as (H1 & H2 & H3).
    destruct (App5.process_transaction env txn f w) as [o5 w5]. cbn [fst snd] in *.
    subst o5. rewrite process_transaction_stored by done. cbn [fst snd http_status].
    split; [reflexivity|]. split; [reflexivity|]. split; [split; reflexivity|].
    split; [|split; [exact H3|exact H2]].
    cbn [Run4.stored_world events]. in_events.
Qed.

Lemma C9_variants_agree_witness :
  fake_db_absent fresh_world /\
  http_status (fst (serve (App5.process_transaction demo_oracle eur_100 one) fresh_world))
  = http_status (fst (serve (App4.process_transaction demo_oracle eur_100 one) fresh_world)).
Proof.
  assert (fake_db_absent fresh_world) as Hdb by reflexivity.
  split; [exact Hdb|].
  exact (proj1 (proj2 (C9_variants_agree demo_oracle eur_100 one fresh_world Hdb))).
Defined.

(** ** Correlation id on the failure path *)

(** C1: in variant 1 the message of a failed request is the fixed text
    "Transaction failed", which does not contain the trace id that the
    success path of the same request returns (1000 here); variant 2, run on
    the same request, does put its trace id into the message. *)
Theorem C1_app4_failure_detail_omits_trace_id :
  let failed := fst (serve (App4.process_transaction demo_oracle eur_100 one) fresh_world) in
  let ok := fst (serve (App4.process_transaction demo_oracle eur_100 zero) fresh_world) in
  let failed5 := fst (serve (App5.process_transaction demo_oracle eur_100 one) fresh_world) in
  ok = {| http_status := 200;
          http_body := [("status", VStr "processed"); ("trace_id", VInt 1000)] |}
  /\ failed = {| http_status := 500; http_body := [("detail", VStr "Transaction failed")] |}
  /\ embeds "Transaction failed" (pretty 1000) = false
  /\ failed5 = {| http_status := 500;
                  http_body := [("detail",
                    VStr "Transaction failed. trace_id: 000000000000000000000000000000ff")] |}.
Proof.
  cbv zeta. unfold serve.
  rewrite (process_transaction_injected demo_oracle eur_100 one) by reflexivity.
  rewrite (process_transaction_stored demo_oracle eur_100 zero) by reflexivity.
  split; [reflexivity|]. split; [reflexivity|]. split; [vm_compute; reflexivity|].
  assert (ltb (draw demo_oracle fresh_world) one = true) as Hlt by reflexivity.
  assert (fake_db_absent fresh_world) as Hdb by reflexivity.
  destruct (app5_process_transaction_injected demo_oracle eur_100 one fresh_world Hlt Hdb)
    as (H1 & _).
  destruct (App5.process_transaction demo_oracle eur_100 one fresh_world) as [o5 w5].
  cbn [fst] in H1. subst o5. vm_compute. reflexivity.
Qed.

(** ** The missing table stays missing *)

Lemma serve_world {h : M dict} w : snd (serve h w) = snd (h w).
Proof. unfold serve. destruct (h w) as [[b|[m|c d]] w']; reflexivity. Qed.

(** No sequence of requests creates [fake_db]: started on a store without
    it, every request finds it missing. *)
Lemma run_requests_keeps_fake_db_absent env reqs w :
  fake_db_absent w -> fake_db_absent (snd (run_requests env reqs w)).
Proof.
  revert w. induction reqs as [|q reqs IH]; intros w Hdb; [exact Hdb|].
  cbn [run_requests].
  pose proof (process_transaction_keeps_fake_db_absent env (req_txn q) (req_fail_rate q) w Hdb)
    as H1.
  rewrite <- serve_world in H1.
  destruct (serve (App4.process_transaction env (req_txn q) (req_fail_rate q)) w)
    as [resp w1].
  specialize (IH w1 H1). destruct (run_requests env reqs w1) as [resps w2]. exact IH.
Qed.

(** * Further properties of the handlers *)

(** ** What a sequence of requests leaves behind *)

Lemma serve_process_transaction_cases env txn f w :
  let r := serve (App4.process_transaction env txn f) w in
  (ltb (draw env w) f = true /\ fake_db_absent w /\
   http_status (fst r) = 500 /\ snd r = Run4.failed_world env txn w)
  \/
  (exists table rows,
     table = (if ltb (draw env w) f then "fake_db" else "transactions") /\
     ensure_table "transactions" (db w) !! table = Some rows /\
     fst r = {| http_status := 200; http_body := Run4.success_body env w |} /\
     snd r = Run4.stored_world env txn table w).
Proof.
  unfold serve.
  destruct (process_transaction_cases env txn f w)
    as [(H1 & H2 & ->)|(t & rows & H1 & H2 & ->)]; [left|right]; eauto 10.
Qed.

(** X1: over any sequence of requests, the metric samples recorded are, for
    each request answered 200 and in order, one sample on the counter
    followed by one on the value histogram carrying the request's amount;
    requests answered otherwise record nothing. *)
Theorem X1_samples_of_a_sequence env reqs w :
  let r := run_requests env reqs w in
  samples (snd r)
  = samples w
    ++ flat_map (fun q => [Run4.counter_sample (req_txn q); Run4.value_sample (req_txn q)])
         (succeeded reqs (fst r)).
Proof.
  revert w. induction reqs as [|q reqs IH]; intros w.
  - simpl. by rewrite app_nil_r.
  - cbn [run_requests].
    pose proof (serve_process_transaction_samples env (req_txn q) (req_fail_rate q) w) as H1.
    destruct (serve (App4.process_transaction env (req_txn q) (req_fail_rate q)) w)
      as [resp w1].
    specialize (IH w1). destruct (run_requests env reqs w1) as [resps w2].
    cbn [fst snd] in *. rewrite IH. cbn [succeeded].
    destruct H1 as [[-> ->]|[-> ->]]; cbn [Z.eqb Pos.eqb flat_map].
    + reflexivity.
    + rewrite <- app_assoc. reflexivity.
Qed.





(** ** Connections *)





(** ** Error telemetry *)


(** X5: the spans a request starts all carry one trace id: that of the
    span active on entry or, without one, a newly generated id; and it is
    this id that a 200 response returns as [trace_id]. *)
Theorem X5_one_trace_id_per_request env txn f w :
  let r := serve (App4.process_transaction env txn f) w in
  let tid := match current_span w with
             | Some p => sp_trace_id p
             | None => generate_trace_id env (span_count w)
             end in
  exists delta,
    events (snd r) = events w ++ delta
    /\ started_trace_ids delta = [tid; tid]
    /\ (http_status (fst r) = 500
        \/ fst r = {| http_status := 200;
                      http_body := [("status", VStr "processed"); ("trace_id", VInt tid)] |}).
Proof.
  intros r tid. subst r tid.
  destruct (serve_process_transaction_cases env txn f w)
    as [(_ & _ & H5 & ->)|(t & rows & _ & _ & -> & ->)].
  - exists (Run4.prologue env txn w ++ Run4.attempt txn "fake_db" w
            ++ Run4.failure_epilogue env w).
    split; [reflexivity|]. split; [reflexivity|]. by left.
  - exists (Run4.prologue env txn w ++ Run4.attempt txn t w ++ Run4.success_epilogue env w).
    split; [reflexivity|]. split; [reflexivity|]. right. reflexivity.
Qed.

(** ** When somebody has created [fake_db] *)

(** X6: the injected failure depends on [fake_db] being missing.  If the
    store holds a table of that name, a request whose draw is below
    [fail_rate] is answered 200: its row is appended to [fake_db], the
    [transactions] table gets no row, and the metrics are recorded as for
    any successful request. *)
Theorem X6_injection_defused_by_existing_table env txn f w rows :
  ltb (draw env w) f = true ->
  db w !! "fake_db" = Some rows ->
  let r := serve (App4.process_transaction env txn f) w in
  fst r = {| http_status := 200; http_body := Run4.success_body env w |}
  /\ select_all "fake_db" (snd r)
     = Some (rows ++ [{| row_id := next_rowid rows; row_amount := amount txn;
                         row_currency := currency txn; row_status := "SUCCESS" |}])
  /\ transactions_rows (snd r) = transactions_rows w
  /\ samples (snd r) = samples w ++ [Run4.counter_sample txn; Run4.value_sample txn].
Proof.
  intros Hlt Hdb r. subst r. unfold serve.
  assert (ensure_table "transactions" (db w) !! "fake_db" = Some rows) as H
    by (by rewrite ensure_table_lookup_ne).
  rewrite (process_transaction_routed env txn f w "fake_db" rows) by (by rewrite ?Hlt).
  cbn [fst snd]. split; [reflexivity|].
  unfold transactions_rows, select_all. cbn [Run4.stored_world db samples].
  split.
  { rewrite lookup_insert_eq. unfold Run4.new_row, Run4.rows_before. by rewrite H. }
  split; [|reflexivity].
  rewrite lookup_insert_ne by done. by rewrite ensure_table_lookup.
Qed.

Lemma X6_injection_defused_by_existing_table_witness :
  ltb (draw demo_oracle world_with_fake_db) one = true /\
  db world_with_fake_db !! "fake_db" = Some [] /\
  http_status (fst (serve (App4.process_transaction demo_oracle eur_100 one)
                      world_with_fake_db)) = 200.
Proof.
  assert (ltb (draw demo_oracle world_with_fake_db) one = true) as Hlt by reflexivity.
  assert (db world_with_fake_db !! "fake_db" = Some []) as Hdb by reflexivity.
  split; [exact Hlt|]. split; [exact Hdb|].
  rewrite (proj1 (X6_injection_defused_by_existing_table
                    demo_oracle eur_100 one world_with_fake_db [] Hlt Hdb)).
  reflexivity.
Defined.

(** ** [get_conn] *)

Lemma ensure_table_idem t d : ensure_table t (ensure_table t d) = ensure_table t d.
Proof.
  unfold ensure_table at 1. by rewrite ensure_table_lookup.
Qed.

(** X7: [get_conn] returns a new connection with nothing pending and leaves
    it open; it creates [transactions] empty when the table is missing and
    otherwise keeps its rows; it changes no other table; and calling it
    again changes nothing in the store. *)
Theorem X7_get_conn_creates_table_once (w : world) :
  let r := App4.get_conn w in
  fst r = Return {| conn_id := connections w; conn_pending := [] |}
  /\ open_connections (snd r) = connections w :: open_connections w
  /\ select_all "transactions" (snd r) = Some (transactions_rows w)
  /\ (forall t, t <> "transactions" -> select_all t (snd r) = select_all t w)
  /\ db (snd (App4.get_conn (snd r))) = db (snd r)
  /\ App5.get_conn w = r.
Proof.
  intros r. subst r. destruct w. py_step. cbn [fst snd].
  unfold transactions_rows, select_all. py_step.
  split; [reflexivity|]. split; [reflexivity|].
  split; [apply ensure_table_lookup|].
  split; [intros t Ht; by apply ensure_table_lookup_ne|].
  split; [apply ensure_table_idem|reflexivity].
Qed.

(** ** The maintenance task and the rest of the world *)

(** X8: the maintenance task opens one span [system_maintenance] and ends it
    as its last action, puts the previously active span back, and touches
    neither the database nor the connections nor the transaction counter. *)
Theorem X8_maintenance_leaves_store_alone env mult w :
  let w' := snd (App4.maintenance_task env mult w) in
  db w' = db w
  /\ open_connections w' = open_connections w
  /\ connections w' = connections w
  /\ counter_samples (samples w') = counter_samples (samples w)
  /\ current_span w' = current_span w
  /\ exists delta,
       events w' = events w ++ delta
       /\ count_events is_db_event delta = 0%nat
       /\ count_events (is_start_of "system_maintenance") delta = 1%nat
       /\ count_events (is_end_of (span_count w)) delta = 1%nat
       /\ last delta = Some (SpanEnd (Maint4.task_span env w)).
Proof.
  intros w'. subst w'. rewrite maintenance_task_run. cbn [snd Maint4.final_world
    db open_connections connections samples current_span events].
  split; [reflexivity|]. split; [reflexivity|]. split; [reflexivity|].
  split; [rewrite counter_samples_app, app_nil_r; reflexivity|].
  split; [reflexivity|].
  eexists. split; [reflexivity|].
  cbn -[Nat.eqb]. rewrite Nat.eqb_refl. repeat split; reflexivity.
Qed.

(** ** The Elastic APM variant, event by event *)

Lemma app5_serve_cases env txn f w :
  let r := serve (App5.process_transaction env txn f) w in
  samples (snd r) = samples w /\ current_span (snd r) = current_span w /\
  ((ltb (draw env w) f = true /\ fake_db_absent w /\
    fst r = Run5.failure_response w /\
    events (snd r) = events w ++ Run5.request_events env txn "fake_db" Run5.failure_tail w)
   \/
   (exists table rows,
      table = (if ltb (draw env w) f then "fake_db" else "transactions") /\
      ensure_table "transactions" (db w) !! table = Some rows /\
      fst r = Run5.success_response w /\
      events (snd r)
      = events w ++ Run5.request_events env txn table (Run5.success_tail w) w)).
Proof.
  cbv zeta. unfold serve.
  destruct (ltb (draw env w) f) eqn:Hlt;
    [destruct (db w !! "fake_db") as [rows|] eqn:Hdb|].
  - assert (ensure_table "transactions" (db w) !! "fake_db" = Some rows) as H
      by (by rewrite ensure_table_lookup_ne).
    destruct w as [d c oc cs sc [tid|] ev sm rc cc]; revert Hlt Hdb H;
      py_step; intros Hlt Hdb H; rewrite Hlt; py_step; rewrite H; py_step;
      cbn [fst snd]; (split; [reflexivity|]); (split; [reflexivity|]);
      right; exists "fake_db", rows;
      (split; [reflexivity|]); (split; [first [exact H|reflexivity]|]); (split; [reflexivity|]);
      rewrite <- !app_assoc; reflexivity.
  - destruct w as [d c oc cs sc [tid|] ev sm rc cc]; revert Hlt Hdb;
      py_step; intros Hlt Hdb; rewrite Hlt; py_step;
      rewrite ensure_table_lookup_ne by done; rewrite Hdb; py_step;
      cbn [fst snd]; (split; [reflexivity|]); (split; [reflexivity|]);
      left; (split; [reflexivity|]); (split; [first [exact Hdb|reflexivity]|]); (split; [reflexivity|]);
      rewrite <- !app_assoc; reflexivity.
  - destruct w as [d c oc cs sc [tid|] ev sm rc cc]; revert Hlt;
      py_step; intros Hlt; rewrite Hlt; py_step;
      rewrite ensure_table_lookup; py_step;
      cbn [fst snd]; (split; [reflexivity|]); (split; [reflexivity|]);
      right; exists "transactions", (default [] (d !! "transactions"));
      (split; [reflexivity|]); (split; [apply ensure_table_lookup|]);
      (split; [reflexivity|]);
      rewrite <- !app_assoc; reflexivity.
Qed.

(** X9: the Elastic variant records the outcome on both paths and never
    records a metric sample: a request answered 500 captures the exception,
    labels the transaction [business_status = failed] and sets its result to
    "FAILURE" once; a request answered 200 labels it [success] and sets the
    result to "SUCCESS" once. *)
Theorem X9_app5_outcome_recorded_on_both_paths env txn f w :
  let r := serve (App5.process_transaction env txn f) w in
  exists delta,
    events (snd r) = events w ++ delta
    /\ samples (snd r) = samples w
    /\ ((http_status (fst r) = 500
         /\ count_events (is_result "FAILURE") delta = 1%nat
         /\ count_events (is_result "SUCCESS") delta = 0%nat
         /\ In ApmCaptureException delta
         /\ In (ApmLabel [("business_status", VStr "failed")]) delta)
        \/ (http_status (fst r) = 200
            /\ count_events (is_result "SUCCESS") delta = 1%nat
            /\ count_events (is_result "FAILURE") delta = 0%nat
            /\ In (ApmLabel [("business_status", VStr "success")]) delta)).
Proof.
  intros r. subst r.
  destruct (app5_serve_cases env txn f w)
    as (Hs & _ & [(_ & _ & -> & ->)|(t & rows & _ & _ & -> & ->)]);
    eexists; (split; [reflexivity|]); (split; [exact Hs|]); [left|right];
    unfold Run5.request_events, Run5.root_span, Run5.fraud_span, Run5.new_span;
    destruct (apm_transaction w); cbn;
    repeat split; try reflexivity; repeat (first [left; reflexivity | right]).
Qed.

(** X10: inside an APM transaction the Elastic variant opens one span
    [process_payment] carrying the transaction's trace id, ends that span
    exactly once, as the last thing the request does, whether the request
    is answered 200 or 500, and puts the previously active span back. *)
Theorem X10_app5_span_closed_once env txn f w tid :
  apm_transaction w = Some tid ->
  let r := serve (App5.process_transaction env txn f) w in
  exists root delta,
    Run5.root_span env w = Some root
    /\ sp_trace_id root = tid
    /\ events (snd r) = events w ++ delta
    /\ head delta = Some (SpanStart root)
    /\ count_events (is_start_of "process_payment") delta = 1%nat
    /\ count_events (is_end_of (sp_handle root)) delta = 1%nat
    /\ last delta = Some (SpanEnd root)
    /\ current_span (snd r) = current_span w.
Proof.
  intros Htid r. subst r.
  destruct (app5_serve_cases env txn f w)
    as (_ & Hc & [(_ & _ & _ & ->)|(t & rows & _ & _ & _ & ->)]);
    unfold Run5.request_events, Run5.root_span, Run5.fraud_span, Run5.new_span;
    rewrite Htid; cbn [fmap option_fmap option_map Run5.bracket];
    eexists; eexists; (split; [reflexivity|]); (split; [reflexivity|]);
    (split; [reflexivity|]); (split; [reflexivity|]);
    cbn -[Nat.eqb last]; rewrite ?eqb_succ_self, ?Nat.eqb_refl;
    (split; [reflexivity|]); (split; [reflexivity|]); (split; [reflexivity|]);
    exact Hc.
Qed.

Lemma X10_app5_span_closed_once_witness :
  apm_transaction fresh_world = Some 255 /\
  current_span (snd (serve (App5.process_transaction demo_oracle eur_100 one) fresh_world))
  = current_span fresh_world.
Proof.
  assert (apm_transaction fresh_world = Some 255) as H by reflexivity.
  split; [exact H|].
  destruct (X10_app5_span_closed_once demo_oracle eur_100 one fresh_world 255 H)
    as (root & delta & _ & _ & _ & _ & _ & _ & _ & Hc).
  exact Hc.
Defined.

(** X11: outside an APM transaction the Elastic variant starts and ends no
    span, and there is no trace id to report: the failure message ends in
    "trace_id: None" and a 200 response carries a null [trace_id]. *)
Theorem X11_app5_without_transaction env txn f w :
  apm_transaction w = None ->
  let r := serve (App5.process_transaction env txn f) w in
  exists delta,
    events (snd r) = events w ++ delta
    /\ count_events is_span_event delta = 0%nat
    /\ (fst r = {| http_status := 500;
                   http_body := [("detail", VStr "Transaction failed. trace_id: None")] |}
        \/ fst r = {| http_status := 200;
                      http_body := [("status", VStr "processed"); ("trace_id", VNone)] |}).
Proof.
  intros Htid r. subst r.
  destruct (app5_serve_cases env txn f w)
    as (_ & _ & [(_ & _ & Hr & Hev)|(t & rows & _ & _ & Hr & Hev)]);
    rewrite Hr, Hev; clear Hr Hev;
    unfold Run5.request_events, Run5.root_span, Run5.fraud_span, Run5.new_span,
      Run5.failure_response, Run5.success_response, Run5.trace_id;
    rewrite Htid; cbn [fmap option_fmap option_map Run5.bracket
                       App5.format_trace_id App5.trace_id_value].
  - eexists. split; [reflexivity|]. split; [reflexivity|]. left. reflexivity.
  - eexists. split; [reflexivity|]. split; [reflexivity|]. right. reflexivity.
Qed.

Lemma X11_app5_without_transaction_witness :
  apm_transaction world_without_transaction = None /\
  exists delta,
    events (snd (serve (App5.process_transaction demo_oracle eur_100 one)
                   world_without_transaction))
    = events world_without_transaction ++ delta
    /\ count_events is_span_event delta = 0%nat.
Proof.
  assert (apm_transaction world_without_transaction = None) as H by reflexivity.
  split; [exact H|].
  destruct (X11_app5_without_transaction demo_oracle eur_100 one world_without_transaction H)
    as (delta & H1 & H2 & _).
  exists delta. split; assumption.
Defined.

(** X12: the maintenance task of the Elastic variant answers exactly as
    that of variant 1 and uses the same draws and clock readings, but it
    records no metric sample: the duration is attached to the transaction
    as the label [processing_duration_ms] next to [task_type = "sort"].  It
    leaves the database alone and puts the previously active span back. *)
Theorem X12_app5_maintenance_labels_duration env mult w :
  let r5 := App5.maintenance_task env mult w in
  let r4 := App4.maintenance_task env mult w in
  fst r5 = fst r4
  /\ rng_calls (snd r5) = rng_calls (snd r4)
  /\ clock_calls (snd r5) = clock_calls (snd r4)
  /\ samples (snd r5) = samples w
  /\ db (snd r5) = db w
  /\ current_span (snd r5) = current_span w
  /\ In (ApmLabel [("task_type", VStr "sort");
                   ("processing_duration_ms", VFloat (Maint4.duration env w))])
        (events (snd r5)).
Proof.
  intros r5 r4. subst r5 r4. rewrite maintenance_task_run.
  unfold App5.maintenance_task, App5.capture_span.
  destruct (apm_transaction w) as [tid|] eqn:Htid;
    cbv beta iota zeta delta [bind App5.label emit logger_warning time_perf_counter];
    rewrite random_list_run; clear Htid; destruct w as [d c oc cs sc tx ev sm rc cc]; py_step;
    cbv beta iota zeta delta
      [fst snd Maint4.final_world Maint4.done_body Maint4.duration rng_calls clock_calls
       samples db current_span events];
    repeat (split; [reflexivity|]);
    rewrite <- ?app_assoc; apply in_or_app; right; simpl;
    repeat (first [left; reflexivity | right]).
Qed.
